(** * PR Analyser: a shallow embedding of [bitbucket-pr-analyser.js]

    The user script fetches the changes of a pull request, runs four
    heuristic analysers over them and posts one task per finding under an
    auto-generated parent comment.  This file embeds the change-analysis
    part (lines 27-281 of the script) and the branch taken by
    [initialiseAnalyserContainer], and states the properties of it.

    Modelling conventions.
    - A JS string is a [string]; [includes] is substring search and
      [toLowerCase] lower-cases the letters A-Z, which is what
      [String.prototype.toLowerCase] does on the ASCII range.
    - JS arrays are lists, [Array.prototype.forEach] with a callback that
      assigns to captured variables is a left fold whose accumulator holds
      those variables.
    - An [async] function is a computation in a state-and-exception monad
      over an arbitrary REST server.  [fetch] appends the request to a log
      and hands it to the server, which answers with a body of the shape
      the REST interface gives that request, or not at all (the promise is
      rejected). *)

From Stdlib Require Import List String Ascii Bool Arith ZArith Lia.
From Stdlib Require Import Permutation DecimalString.
Import ListNotations.
Open Scope string_scope.
Open Scope list_scope.

Set Implicit Arguments.

(* ------------------------------------------------------------------ *)
(** ** JS string primitives *)
(* ------------------------------------------------------------------ *)

Module JSString.

(** [startsWith s sub]: [sub] is a prefix of [s]. *)
Fixpoint startsWith (s sub : string) : bool :=
  match sub, s with
  | EmptyString, _ => true
  | String _ _, EmptyString => false
  | String b sub', String a s' => Ascii.eqb a b && startsWith s' sub'
  end.

(** [s.includes(sub)]: [sub] occurs somewhere in [s]. *)
Fixpoint includes (s sub : string) : bool :=
  startsWith s sub ||
  match s with
  | EmptyString => false
  | String _ s' => includes s' sub
  end.

Definition lowerChar (c : ascii) : ascii :=
  let n := nat_of_ascii c in
  if ((65 <=? n) && (n <=? 90))%nat then ascii_of_nat (n + 32) else c.

(** [s.toLowerCase()] on the ASCII range. *)
Fixpoint toLowerCase (s : string) : string :=
  match s with
  | EmptyString => EmptyString
  | String c s' => String (lowerChar c) (toLowerCase s')
  end.

End JSString.
Import JSString.

(* ------------------------------------------------------------------ *)
(** ** Data: the REST payloads and the change set *)
(* ------------------------------------------------------------------ *)

(** One line of a diff segment: [{line}]. *)
Record lineItem := LineItem { line : string }.

(** A run of lines with one change kind: [{type, lines}]. *)
Record segment := Segment { type : string; lines : list lineItem }.

(** [{segments}]. *)
Record hunk := Hunk { hunk_segments : list segment }.

(** [{hunks}]; the field is absent for a diff with nothing to show. *)
Record diff := Diff { hunks : option (list hunk) }.

(** The [path] object of one entry of [GET changes]. *)
Record pathJson := PathJson
  { path_toString : string; path_name : string; path_extension : string }.

(** One entry of [GET changes]. *)
Record changeJson := ChangeJson { change_path : pathJson }.

(** What [fetchChangePaths] builds, once [fetchChanges] has filled in
    [segments]. *)
Record changedFile := ChangedFile
  { path : string; name : string; extension : string;
    segments : list segment }.

(* ------------------------------------------------------------------ *)
(** ** extractSegments (lines 49-66) *)
(* ------------------------------------------------------------------ *)

(** [diffs] is [None] when the response has no (or a null) [diffs] field.
    An empty array is truthy in JS and takes the [forEach] path. *)
Definition extractSegments (diffs : option (list diff)) : list segment :=
  let segments := [] in
  match diffs with
  | None => []
  | Some diffs =>
      fold_left
        (fun segments diff =>
           match hunks diff with
           | None => segments
           | Some hs =>
               fold_left
                 (fun segments hunk => segments ++ hunk_segments hunk)
                 hs segments
           end)
        diffs segments
  end.

(* ------------------------------------------------------------------ *)
(** ** Analyser utilities (lines 82-105) *)
(* ------------------------------------------------------------------ *)

Section AnalyserUtil.
Variable S : Type.

(** [callback] takes no argument and updates the captured variables. *)
Definition checkPaths (changes : list changedFile) (pathSubstring : string)
           (callback : S -> S) (s : S) : S :=
  fold_left
    (fun s change =>
       if includes (path change) pathSubstring then callback s else s)
    changes s.

(** [callback] receives the text of the line. *)
Definition checkLines (changes : list changedFile) (extension' : string)
           (callback : string -> S -> S) (s : S) : S :=
  fold_left
    (fun s change =>
       if negb (String.eqb (extension change) extension') then s
       else
         fold_left
           (fun s segment =>
              if negb (String.eqb (type segment) "ADDED") then s
              else
                fold_left
                  (fun s lineItem => callback (line lineItem) s)
                  (lines segment) s)
           (segments change) s)
    changes s.
End AnalyserUtil.

(* ------------------------------------------------------------------ *)
(** ** Analysers (lines 114-212) *)
(* ------------------------------------------------------------------ *)

Definition significantChangesTask :=
  "Significant changes - check if automated tests are required.".
Definition mssqlNotOracleTask :=
  "MSSQL updated but not Oracle. Check this is ok.".
Definition oracleNotMssqlTask :=
  "Oracle updated but not MSSQL. Check this is ok.".
Definition notifyTeamTask :=
  "(On merge) Notify the team that there are database changes that need to be applied.".
Definition dropScriptsTask :=
  "Create table but no drop table. Need to update the drop scripts?".
Definition dotEqualsTask :=
  "Found uses of .equals. Review these to check if StringUtils methods are a more appropriate choice.".

(** [tasks.push(t)] when [c] holds. *)
Definition pushIf (c : bool) (t : string) (tasks : list string) : list string :=
  if c then tasks ++ [t] else tasks.

Definition analyseNumberOfChanges (changes : list changedFile) : list string :=
  let CHANGE_THRESHOLD := 100%nat in
  let tasks := [] in
  let numLinesJS := checkLines changes "js" (fun _ n => n + 1)%nat 0%nat in
  let numLinesJava := checkLines changes "java" (fun _ n => n + 1)%nat 0%nat in
  pushIf (CHANGE_THRESHOLD <? numLinesJS + numLinesJava)%nat
         significantChangesTask tasks.

Definition analyseDBScriptSynergy (changes : list changedFile) : list string :=
  let tasks := [] in
  let containsMssqlChanges := checkPaths changes "/mssql/" (fun _ => true) false in
  let containsOracleChanges := checkPaths changes "/oracle/" (fun _ => true) false in
  let tasks :=
    pushIf (containsMssqlChanges && negb containsOracleChanges)
           mssqlNotOracleTask tasks in
  let tasks :=
    pushIf (negb containsMssqlChanges && containsOracleChanges)
           oracleNotMssqlTask tasks in
  pushIf (containsMssqlChanges || containsOracleChanges) notifyTeamTask tasks.

Definition analyseDropScriptsNeeded (changes : list changedFile) : list string :=
  let tasks := [] in
  let containsCreateTable :=
    checkLines changes "sql"
      (fun line b => if includes (toLowerCase line) "create table" then true else b)
      false in
  let containsDropTable :=
    checkLines changes "sql"
      (fun line b => if includes (toLowerCase line) "drop table" then true else b)
      false in
  pushIf (containsCreateTable && negb containsDropTable) dropScriptsTask tasks.

Definition analyseUseOfDotEquals (changes : list changedFile) : list string :=
  let tasks := [] in
  let containsDotEquals :=
    checkLines changes "java"
      (fun line b =>
         if includes line ".equals" && negb (includes line "StringUtils")
         then true else b)
      false in
  pushIf containsDotEquals dotEqualsTask tasks.

(** Lines 220-225 of [analyse]: the findings before the reversal. *)
Definition collectTasks (changes : list changedFile) : list string :=
  let tasks := [] in
  let tasks := tasks ++ analyseNumberOfChanges changes in
  let tasks := tasks ++ analyseDBScriptSynergy changes in
  let tasks := tasks ++ analyseDropScriptsNeeded changes in
  let tasks := tasks ++ analyseUseOfDotEquals changes in
  tasks.

(* ------------------------------------------------------------------ *)
(** ** The REST collaborator *)
(* ------------------------------------------------------------------ *)

(** [{text, state}] *)
Record task := Task { task_text : string; task_state : string }.

(** [{id, text, tasks}] *)
Record comment := Comment { id : Z; text : string; tasks : list task }.

(** An activity record; only some carry a comment. *)
Record activityItem := ActivityItem { activity_comment : option comment }.

(** The five requests the script sends.  [POST_tasks] carries the anchor
    id, the pull request id, the text and the state of its JSON body. *)
Inductive request :=
| GET_changes
| GET_diff (filePath : string)
| GET_activities
| POST_comments (text : string)
| POST_tasks (anchorId : Z) (pullRequestId : string) (text state : string).

(** A paged answer: [{values}]. *)
Record page (A : Type) := Page { values : list A }.

(** The answer to [GET diff]: [{diffs}], the field possibly absent. *)
Record diffJson := DiffJson { diffs : option (list diff) }.

(** The parsed body of the answer to each request, with the shape the
    REST interface gives it.  The script never reads the body of the
    answer to a [POST]. *)
Definition response (r : request) : Type :=
  match r with
  | GET_changes => page changeJson
  | GET_diff _ => diffJson
  | GET_activities => page activityItem
  | POST_comments _ => unit
  | POST_tasks _ _ _ _ => unit
  end.

(** What the script does to the outside, in order. *)
Inductive event :=
| Fetch (r : request)
| Reload.

Definition PARENT_COMMENT_TEXT := "_Auto-generated comment from PR Analyser_".

(** The rendering chosen by [initialiseAnalyserContainer]. *)
Inductive content :=
| AllGood
| TaskList (analyserTasks : list task)
| AnalyseButton.

(* ------------------------------------------------------------------ *)
(** ** The script's asynchronous functions *)
(* ------------------------------------------------------------------ *)

Section Client.
(** Any server: it answers a request (or the fetch fails) and moves to a
    new state. *)
Variable server : Type.
Variable respond : forall r : request, server -> option (response r) * server.
(** [getPRMetadata().prid] *)
Variable prid : string.

Record world := World { srv : server; log : list event }.

(** An [async] function: it may reject ([None]); what it has done to the
    world by then stays done. *)
Definition M (A : Type) := world -> option A * world.

Definition ret {A} (a : A) : M A := fun w => (Some a, w).
Definition throw {A} : M A := fun w => (None, w).
Definition bind {A B} (m : M A) (k : A -> M B) : M B :=
  fun w =>
    match m w with
    | (Some a, w') => k a w'
    | (None, w') => (None, w')
    end.

Notation "x <- m ;; k" := (bind m (fun x => k))
  (at level 61, m at next level, right associativity).

(** A [for] loop that awaits [f] on each element in turn. *)
Fixpoint forEachAwait {A B} (f : A -> M B) (l : list A) : M (list B) :=
  match l with
  | [] => ret []
  | a :: l' => b <- f a ;; bs <- forEachAwait f l' ;; ret (b :: bs)
  end.

Definition fetch (r : request) : M (response r) :=
  fun w =>
    let (o, s') := respond r (srv w) in
    (o, World s' (log w ++ [Fetch r])).

Definition reload : M unit :=
  fun w => (Some tt, World (srv w) (log w ++ [Reload])).

(** Lines 27-41.  [segments] is not set yet; it is [[]] here. *)
Definition fetchChangePaths : M (list changedFile) :=
  activityResponse <- fetch GET_changes ;;
  let changePaths :=
    map (fun change =>
           {| path := path_toString (change_path change);
              name := path_name (change_path change);
              extension := path_extension (change_path change);
              segments := [] |})
        (values activityResponse) in
  ret changePaths.

(** Lines 43-47. *)
Definition fetchChangeDetail (filePath : string) : M (list segment) :=
  activityResponse <- fetch (GET_diff filePath) ;;
  ret (extractSegments (diffs activityResponse)).

(** Lines 68-76. *)
Definition fetchChanges : M (list changedFile) :=
  changedFiles <- fetchChangePaths ;;
  forEachAwait
    (fun file =>
       x <- fetchChangeDetail (path file) ;;
       ret {| path := path file; name := name file;
              extension := extension file; segments := x |})
    changedFiles.

(** The predicate of the [find] of line 258:
    [activityItem?.comment?.text === PARENT_COMMENT_TEXT]. *)
Definition isParentComment (activityItem : activityItem) : bool :=
  match activity_comment activityItem with
  | Some c => String.eqb (text c) PARENT_COMMENT_TEXT
  | None => false
  end.

(** Lines 255-263; [None] is JS [undefined]. *)
Definition getParentComment : M (option activityItem) :=
  activityJson <- fetch GET_activities ;;
  ret (find isParentComment (values activityJson)).

(** Lines 242-253. *)
Definition addParentComment : M (option activityItem) :=
  _ <- fetch (POST_comments PARENT_COMMENT_TEXT) ;;
  getParentComment.

(** Lines 265-281. *)
Definition addTask (text : string) (commentId : Z) : M unit :=
  _ <- fetch (POST_tasks commentId prid text "OPEN") ;;
  ret tt.

(** Lines 214-234.  [parentComment.comment.id] throws when the lookup
    found nothing. *)
Definition analyse : M unit :=
  parentComment <- addParentComment ;;
  match parentComment with
  | None => throw
  | Some parentComment =>
      match activity_comment parentComment with
      | None => throw
      | Some c =>
          let parentCommentId := id c in
          changes <- fetchChanges ;;
          let tasks := collectTasks changes in
          let tasks := rev tasks in
          _ <- forEachAwait (fun t => addTask t parentCommentId) tasks ;;
          reload
      end
  end.

(** Lines 317-339 of [initialiseAnalyserContainer]: which content is
    shown.  The Analyse button, whose click runs [analyse], is shown only
    when no parent comment was found. *)
Definition initialiseAnalyserContainer : M content :=
  parentComment <- getParentComment ;;
  match parentComment with
  | Some parentComment =>
      match activity_comment parentComment with
      | None => throw
      | Some c =>
          let analyserTasks := tasks c in
          if (List.length analyserTasks =? 0)%nat then ret AllGood
          else ret (TaskList analyserTasks)
      end
  | None => ret AnalyseButton
  end.

End Client.

Arguments ret {server A} a w.
Arguments throw {server A} w.
Arguments bind {server A B} m k w.
Arguments forEachAwait {server A B} f l w.
Arguments reload {server} w.

(* ------------------------------------------------------------------ *)
(** ** Vocabulary of the specification *)
(* ------------------------------------------------------------------ *)

(** [sub] occurs in [s]. *)
Definition contains (s sub : string) : Prop :=
  exists pre post, s = (pre ++ sub ++ post)%string.

(** [sub] occurs in [s] in some letter case. *)
Definition containsIgnoreCase (s sub : string) : Prop :=
  exists pre mid post,
    s = (pre ++ mid ++ post)%string /\ toLowerCase mid = toLowerCase sub.

(** Some changed file has [sub] in its path. *)
Definition touches (changes : list changedFile) (sub : string) : Prop :=
  exists f, In f changes /\ contains (path f) sub.

Definition isAdded (s : segment) : bool := String.eqb (type s) "ADDED".

Definition hasExtension (ext : string) (f : changedFile) : bool :=
  String.eqb (extension f) ext.

(** The ADDED segments of the files with extension [ext], in order. *)
Definition addedSegments (ext : string) (changes : list changedFile)
  : list segment :=
  flat_map (fun f => filter isAdded (segments f))
           (filter (hasExtension ext) changes).

(** The text of the ADDED lines of the files with extension [ext]. *)
Definition addedLines (ext : string) (changes : list changedFile)
  : list string :=
  flat_map (fun s => map line (lines s)) (addedSegments ext changes).

(** The hunks of a diff entry, none when the field is absent. *)
Definition hunksOf (d : diff) : list hunk :=
  match hunks d with Some hs => hs | None => [] end.

(** The lines of a list of segments, each with the kind of its segment. *)
Definition taggedLines (ss : list segment) : list (string * string) :=
  flat_map (fun s => map (fun l => (type s, line l)) (lines s)) ss.

Definition isCreateComment (e : event) : bool :=
  match e with Fetch (POST_comments _) => true | _ => false end.

Definition isCreateTask (e : event) : bool :=
  match e with Fetch (POST_tasks _ _ _ _) => true | _ => false end.

(** How many events of a log satisfy [p]. *)
Definition count (p : event -> bool) (l : list event) : nat :=
  List.length (filter p l).

(** How many comments of a feed carry the parent comment text. *)
Definition parentComments (values : list activityItem) : nat :=
  List.length (filter isParentComment values).

(** Requests that only read. *)
Definition readOnly (e : event) : bool :=
  match e with
  | Fetch GET_changes | Fetch (GET_diff _) | Fetch GET_activities => true
  | _ => false
  end.

(** [w'] is [w] after some more events, all of which satisfy [p]. *)
Definition extendsBy {server : Type} (p : event -> bool)
           (w w' : world server) : Prop :=
  exists evs, log w' = log w ++ evs /\ forallb p evs = true.

(** A file without its REMOVED and CONTEXT segments. *)
Definition keepAdded (f : changedFile) : changedFile :=
  {| path := path f; name := name f; extension := extension f;
     segments := filter isAdded (segments f) |}.

(** The task-creation event of [addTask text commentId]. *)
Definition taskCreated (prid : string) (commentId : Z) (text : string) : event :=
  Fetch (POST_tasks commentId prid text "OPEN").

(* ------------------------------------------------------------------ *)
(** ** An in-memory review, to run the script against *)
(* ------------------------------------------------------------------ *)

Module InMemory.

Record review := Review
  { changes : list changeJson;
    diffs : list (string * option (list diff));
    activities : list activityItem;
    nextId : Z }.

Fixpoint diffOf (ds : list (string * option (list diff))) (p : string)
  : option (list diff) :=
  match ds with
  | [] => None
  | (q, d) :: ds' => if String.eqb q p then d else diffOf ds' p
  end.

Definition attach (anchorId : Z) (t : task) (a : activityItem)
  : activityItem :=
  match activity_comment a with
  | Some c =>
      if Z.eqb (id c) anchorId
      then ActivityItem (Some (Comment (id c) (text c) (tasks c ++ [t])))
      else a
  | None => a
  end.

(** The feed lists the newest activity first; every posted comment is
    stored under a fresh id. *)
Definition respond (r : request) (rv : review)
  : option (response r) * review :=
  match r return option (response r) * review with
  | GET_changes => (Some (Page (changes rv)), rv)
  | GET_diff p => (Some (DiffJson (diffOf (diffs rv) p)), rv)
  | GET_activities => (Some (Page (activities rv)), rv)
  | POST_comments t =>
      (Some tt,
       Review (changes rv) (diffs rv)
              (ActivityItem (Some (Comment (nextId rv) t [])) :: activities rv)
              (nextId rv + 1))
  | POST_tasks anchorId _ t st =>
      (Some tt,
       Review (changes rv) (diffs rv)
              (map (attach anchorId (Task t st)) (activities rv))
              (nextId rv))
  end.

Definition start (rv : review) : world review := World rv [].


End InMemory.

(* ------------------------------------------------------------------ *)
(** ** Sample change sets *)
(* ------------------------------------------------------------------ *)

Module Samples.

Definition added (ls : list string) : segment :=
  Segment "ADDED" (map LineItem ls).
Definition removed (ls : list string) : segment :=
  Segment "REMOVED" (map LineItem ls).
Definition context (ls : list string) : segment :=
  Segment "CONTEXT" (map LineItem ls).

Definition jsFile (n : nat) : changedFile :=
  ChangedFile "web/src/app.js" "app.js" "js"
              [context ["function f() {"]; added (repeat "  step();" n);
               removed ["  old();"]].

Definition javaFile (ls : list string) : changedFile :=
  ChangedFile "core/src/Main.java" "Main.java" "java" [added ls].

Definition sqlFile (p : string) (ls : list string) : changedFile :=
  ChangedFile p "tables.sql" "sql" [added ls].

Definition otherFile (p : string) : changedFile :=
  ChangedFile p "readme.txt" "txt" [added ["see the wiki"]].

(** 150 added [.js] lines, a file under [/mssql/], none under [/oracle/],
    a [.sql] file creating a table, a [.java] file calling [.equals]. *)
Definition endToEnd : list changedFile :=
  [ jsFile 150;
    otherFile "db/mssql/readme.txt";
    sqlFile "install/tables.sql" ["CREATE TABLE foo (id INT);"];
    javaFile ["x.equals(y)"] ].

Definition toJson (f : changedFile) : changeJson :=
  ChangeJson (PathJson (path f) (name f) (extension f)).

(** One diff entry per segment, each in a hunk of its own, after an entry
    without hunks. *)
Definition toDiffs (f : changedFile) : option (list diff) :=
  Some (Diff None :: map (fun s => Diff (Some [Hunk [s]])) (segments f)).

(** A review whose changes are [files] and that has no activity yet. *)
Definition reviewOf (files : list changedFile) : InMemory.review :=
  InMemory.Review (map toJson files)
                  (map (fun f => (path f, toDiffs f)) files)
                  [] 1.

(** A review of one file whose extension is reported in upper case. *)
Definition upperCaseReview : InMemory.review :=
  InMemory.Review
    [ChangeJson (PathJson "core/src/Main.JAVA" "Main.JAVA" "JAVA")]
    [("core/src/Main.JAVA", Some [Diff (Some [Hunk [added ["a.equals(b)"]]])])]
    [] 1.

End Samples.

(* ------------------------------------------------------------------ *)
(** ** The pull request of the page (lines 10-21) *)
(* ------------------------------------------------------------------ *)

Module PRMetadata.

(** [s.split(sep)] for a separator of one character. *)
Fixpoint split (sep : ascii) (s : string) : list string :=
  match s with
  | EmptyString => [EmptyString]
  | String c s' =>
      if Ascii.eqb c sep then EmptyString :: split sep s'
      else
        match split sep s' with
        | part :: parts => String c part :: parts
        | [] => [String c EmptyString]
        end
  end.

(** The object [getPRMetadata] returns; an index past the end of
    [pathParts] gives [undefined], here [None]. *)
Record metadata := Metadata
  { project : option string; repo : option string; prid : option string }.

(** [pathname] is [window.location.pathname]. *)
Definition getPRMetadata (pathname : string) : metadata :=
  let pathParts := split "/" pathname in
  {| project := nth_error pathParts 2;
     repo := nth_error pathParts 4;
     prid := nth_error pathParts 6 |}.

Definition baseURL := "https://{server}/rest/api/latest".

(** A value inside a template literal. *)
Definition interpolate (v : option string) : string :=
  match v with Some s => s | None => "undefined" end.

Definition prFetchURLPrefix (pathname : string) : string :=
  (baseURL ++ "/projects/" ++ interpolate (project (getPRMetadata pathname))
   ++ "/repos/" ++ interpolate (repo (getPRMetadata pathname))
   ++ "/pull-requests/" ++ interpolate (prid (getPRMetadata pathname)))%string.

(** [c] does not occur in [s]. *)
Fixpoint free (c : ascii) (s : string) : bool :=
  match s with
  | EmptyString => true
  | String d s' => negb (Ascii.eqb d c) && free c s'
  end.

(** How often [c] occurs in [s]. *)
Fixpoint occurrences (c : ascii) (s : string) : nat :=
  match s with
  | EmptyString => 0
  | String d s' =>
      ((if Ascii.eqb d c then 1 else 0) + occurrences c s')%nat
  end.

End PRMetadata.

(* ------------------------------------------------------------------ *)
(** ** Merge time suitability (lines 369-379) *)
(* ------------------------------------------------------------------ *)

Module MergeTime.

Record range := Range { from : string; to : string }.

(** What [isWithinRange] reads of a [Date]: [getHours()] is below 24 and
    [getMinutes()] below 60. *)
Record date := Date { getHours : nat; getMinutes : nat }.

Definition validDate (d : date) : Prop :=
  (getHours d < 24 /\ getMinutes d < 60)%nat.

(** [n.toString()] for a natural number. *)
Definition numberToString (n : nat) : string :=
  NilZero.string_of_uint (Nat.to_uint n).

(** [n] characters taken from [rest] and then from [padString] over and
    over. *)
Fixpoint fill (n : nat) (padString rest : string) : string :=
  match n with
  | O => EmptyString
  | S n' =>
      match rest with
      | String c r => String c (fill n' padString r)
      | EmptyString =>
          match padString with
          | String c r => String c (fill n' padString r)
          | EmptyString => EmptyString
          end
      end
  end.

(** [s.padStart(targetLength, padString)] *)
Definition padStart (targetLength : nat) (padString s : string) : string :=
  if (targetLength <=? String.length s)%nat then s
  else (fill (targetLength - String.length s) padString padString ++ s)%string.

Definition NON_SUITABLE_TIME_RANGE : range := Range "18:30" "20:59".

Definition NON_SUITABLE_TIME_RANGE_STRING : string :=
  (from NON_SUITABLE_TIME_RANGE ++ "-" ++ to NON_SUITABLE_TIME_RANGE)%string.

(** The [currentTimeString] of line 377. *)
Definition timeString (d : date) : string :=
  (padStart 2 "0" (numberToString (getHours d)) ++ ":"
   ++ padStart 2 "0" (numberToString (getMinutes d)))%string.

(** [>=] and [<=] on strings compare them character by character. *)
Definition isWithinRange (r : range) (d : date) : bool :=
  let currentTimeString := timeString d in
  String.leb (from r) currentTimeString
  && String.leb currentTimeString (to r).

(** Minutes since midnight. *)
Definition minuteOfDay (d : date) : nat :=
  (60 * getHours d + getMinutes d)%nat.

End MergeTime.

(* ------------------------------------------------------------------ *)
(** ** More servers to run the script against *)
(* ------------------------------------------------------------------ *)

(** The in-memory review behind a network that loses the requests [fails]
    picks. *)
Module Unreliable.

Definition respond (fails : request -> bool) (r : request)
           (rv : InMemory.review) : option (response r) * InMemory.review :=
  if fails r then (None, rv) else InMemory.respond r rv.

End Unreliable.

(** A server that accepts everything and lists nothing. *)
Module Blank.

Definition respond (r : request) (s : unit) : option (response r) * unit :=
  match r return option (response r) * unit with
  | GET_changes => (Some (Page []), tt)
  | GET_diff _ => (Some (DiffJson None), tt)
  | GET_activities => (Some (Page []), tt)
  | POST_comments _ => (Some tt, tt)
  | POST_tasks _ _ _ _ => (Some tt, tt)
  end.

End Blank.

(* ------------------------------------------------------------------ *)
(** ** More vocabulary *)
(* ------------------------------------------------------------------ *)

(** Every finding the analysers can emit, in the order of [analyse]. *)
Definition allTasks : list string :=
  [significantChangesTask; mssqlNotOracleTask; oracleNotMssqlTask;
   notifyTeamTask; dropScriptsTask; dotEqualsTask].

(** The path of an entry of [GET changes], as [fetchChangePaths] reads it. *)
Definition pathOf (c : changeJson) : string := path_toString (change_path c).

Definition isReload (e : event) : bool :=
  match e with Reload => true | _ => false end.

(** The state of the server once it has answered the requests [rs], in
    that order, from the state [s]. *)
Definition stateAfter {server : Type}
           (respond : forall r : request, server -> option (response r) * server)
           (rs : list request) (s : server) : server :=
  fold_left (fun s r => snd (respond r s)) rs s.

(** The answer of the server to the request [r] sent after the requests
    [rs]; [None] when that request fails. *)
Definition answerAfter {server : Type}
           (respond : forall r : request, server -> option (response r) * server)
           (rs : list request) (s : server) (r : request)
  : option (response r) :=
  fst (respond r (stateAfter respond rs s)).

(** The request [addTask text commentId] sends. *)
Definition taskRequest (prid : string) (commentId : Z) (text : string)
  : request :=
  POST_tasks commentId prid text "OPEN".

(** The request for the diff of an entry of [GET changes]. *)
Definition diffRequest (c : changeJson) : request := GET_diff (pathOf c).

(** The changed file made of an entry of [GET changes] and the answer to
    the request for its diff. *)
Definition fileOf (c : changeJson) (body : diffJson) : changedFile :=
  {| path := pathOf c;
     name := path_name (change_path c);
     extension := path_extension (change_path c);
     segments := extractSegments (diffs body) |}.

(* ------------------------------------------------------------------ *)
(** ** Substring search and lower-casing *)
(* ------------------------------------------------------------------ *)

Section StringFacts.
Local Open Scope string_scope.

Lemma startsWith_iff (s sub : string) :
  startsWith s sub = true <-> exists post, s = sub ++ post.
Proof.
  revert s; induction sub as [|b sub IH]; intros s.
  - split; [intros _; now exists s | now destruct s].
  - destruct s as [|a s]; simpl.
    + split; [discriminate | intros [post H]; discriminate].
    + rewrite andb_true_iff, Ascii.eqb_eq, IH. split.
      * intros [-> [post ->]]. now exists post.
      * intros [post H]. injection H as -> ->. split; [reflexivity | now exists post].
Qed.

Lemma includes_iff (s sub : string) :
  includes s sub = true <-> contains s sub.
Proof.
  unfold contains. induction s as [|a s IH].
  - cbn [includes]. rewrite orb_false_r, startsWith_iff. split.
    + intros [post H]. now exists "", post.
    + intros [[|c pre] [post H]]; [now exists post | discriminate].
  - cbn [includes]. rewrite orb_true_iff, startsWith_iff, IH. split.
    + intros [[post H] | [pre [post H]]].
      * now exists "", post.
      * exists (String a pre), post. simpl. now rewrite H.
    + intros [[|c pre] [post H]].
      * left. now exists post.
      * right. injection H as _ H. now exists pre, post.
Qed.

Lemma includes_false_iff (s sub : string) :
  includes s sub = false <-> ~ contains s sub.
Proof.
  rewrite <- includes_iff. destruct (includes s sub); intuition congruence.
Qed.

Lemma toLowerCase_app (a b : string) :
  toLowerCase (a ++ b) = toLowerCase a ++ toLowerCase b.
Proof. induction a as [|c a IH]; simpl; [reflexivity | now rewrite IH]. Qed.

(** A split of the lower-cased string comes from a split of the string. *)
Lemma toLowerCase_split (s a b : string) :
  toLowerCase s = a ++ b ->
  exists a' b', s = a' ++ b' /\ toLowerCase a' = a /\ toLowerCase b' = b.
Proof.
  revert s; induction a as [|c a IH]; intros s H.
  - now exists "", s.
  - destruct s as [|d s]; [discriminate |].
    simpl in H. injection H as Hc H.
    destruct (IH _ H) as [a' [b' [-> [Ha Hb]]]].
    exists (String d a'), b'. simpl. now rewrite Hc, Ha, Hb.
Qed.

Lemma lowerChar_idem (c : ascii) : lowerChar (lowerChar c) = lowerChar c.
Proof.
  destruct c as [[] [] [] [] [] [] [] []]; reflexivity.
Qed.

Lemma toLowerCase_idem (s : string) :
  toLowerCase (toLowerCase s) = toLowerCase s.
Proof.
  induction s as [|c s IH]; simpl; [reflexivity|].
  now rewrite lowerChar_idem, IH.
Qed.

(** Searching the lower-cased line for a lower-case needle is searching
    the line without regard to letter case. *)
Lemma includes_toLowerCase_iff (s sub : string) :
  toLowerCase sub = sub ->
  (includes (toLowerCase s) sub = true <-> containsIgnoreCase s sub).
Proof.
  intros Hsub. rewrite includes_iff. unfold contains, containsIgnoreCase.
  rewrite Hsub. split.
  - intros [pre [post H]].
    destruct (toLowerCase_split _ _ _ H) as [pre' [r [-> [_ Hr]]]].
    destruct (toLowerCase_split _ _ _ Hr) as [mid [post' [-> [Hm _]]]].
    now exists pre', mid, post'.
  - intros [pre [mid [post [-> Hm]]]].
    exists (toLowerCase pre), (toLowerCase post).
    now rewrite !toLowerCase_app, Hm.
Qed.

End StringFacts.

(* ------------------------------------------------------------------ *)
(** ** The folds of the analysers *)
(* ------------------------------------------------------------------ *)

Section FoldFacts.

(** [checkLines] calls [callback] once per ADDED line of the files with
    the extension, in order. *)
Lemma checkLines_addedLines (S : Type) (changes : list changedFile)
      (ext : string) (callback : string -> S -> S) (s : S) :
  checkLines changes ext callback s
  = fold_left (fun s l => callback l s) (addedLines ext changes) s.
Proof.
  unfold checkLines, addedLines, addedSegments.
  revert s; induction changes as [|f changes IH]; intros s; [reflexivity|].
  cbn [fold_left filter]. rewrite IH. unfold hasExtension at 2.
  destruct (String.eqb (extension f) ext); cbn [negb]; [|reflexivity].
  cbn [flat_map]. rewrite flat_map_app, fold_left_app. f_equal.
  clear IH. generalize (segments f) as ss. intros ss; revert s.
  induction ss as [|g ss IH]; intros s; [reflexivity|].
  cbn [fold_left filter]. rewrite IH. unfold isAdded at 2.
  destruct (String.eqb (type g) "ADDED"); cbn [negb]; [|reflexivity].
  cbn [flat_map]. rewrite fold_left_app. f_equal.
  generalize (lines g) as ls. intros ls; revert s.
  induction ls as [|l ls IHl]; intros s; [reflexivity|].
  cbn [fold_left map]. now rewrite IHl.
Qed.

Lemma fold_counter (A : Type) (l : list A) (n : nat) :
  fold_left (fun n _ => n + 1)%nat l n = (n + List.length l)%nat.
Proof.
  revert n; induction l as [|a l IH]; intros n; simpl; [lia|].
  rewrite IH. lia.
Qed.

Lemma fold_flag (A : Type) (p : A -> bool) (l : list A) (b : bool) :
  fold_left (fun b a => if p a then true else b) l b = b || existsb p l.
Proof.
  revert b; induction l as [|a l IH]; intros b; simpl.
  - now rewrite orb_false_r.
  - rewrite IH. destruct (p a), b; reflexivity.
Qed.

Lemma checkLines_counter (changes : list changedFile) (ext : string) :
  checkLines changes ext (fun _ n => n + 1)%nat 0%nat
  = List.length (addedLines ext changes).
Proof.
  rewrite checkLines_addedLines.
  exact (fold_counter (addedLines ext changes) 0).
Qed.

Lemma checkLines_flag (changes : list changedFile) (ext : string)
      (p : string -> bool) :
  checkLines changes ext (fun l b => if p l then true else b) false
  = existsb p (addedLines ext changes).
Proof.
  rewrite checkLines_addedLines.
  exact (fold_flag p (addedLines ext changes) false).
Qed.

Lemma checkPaths_flag (changes : list changedFile) (sub : string) :
  checkPaths changes sub (fun _ => true) false
  = existsb (fun f => includes (path f) sub) changes.
Proof.
  unfold checkPaths.
  exact (fold_flag (fun f => includes (path f) sub) changes false).
Qed.

Lemma checkPaths_touches (changes : list changedFile) (sub : string) :
  checkPaths changes sub (fun _ => true) false = true <-> touches changes sub.
Proof.
  rewrite checkPaths_flag, existsb_exists. unfold touches.
  split; intros [f [Hin H]]; exists f; split; auto; now apply includes_iff.
Qed.

Lemma checkPaths_not_touches (changes : list changedFile) (sub : string) :
  checkPaths changes sub (fun _ => true) false = false <-> ~ touches changes sub.
Proof.
  rewrite <- checkPaths_touches.
  destruct (checkPaths changes sub (fun _ => true) false);
    intuition congruence.
Qed.

End FoldFacts.

(* ------------------------------------------------------------------ *)
(** ** What the asynchronous functions do to the world *)
(* ------------------------------------------------------------------ *)

Section ClientFacts.
Variable server : Type.
Variable respond : forall r : request, server -> option (response r) * server.
Variable prid : string.

Lemma extendsBy_refl (p : event -> bool) (w : world server) : extendsBy p w w.
Proof. exists []. now rewrite app_nil_r. Qed.

Lemma extendsBy_trans (p : event -> bool) (w1 w2 w3 : world server) :
  extendsBy p w1 w2 -> extendsBy p w2 w3 -> extendsBy p w1 w3.
Proof.
  intros [e1 [H1 P1]] [e2 [H2 P2]]. exists (e1 ++ e2). split.
  - now rewrite H2, H1, app_assoc.
  - now rewrite forallb_app, P1, P2.
Qed.

Lemma extendsBy_weaken (p q : event -> bool) (w1 w2 : world server) :
  (forall e, p e = true -> q e = true) ->
  extendsBy p w1 w2 -> extendsBy q w1 w2.
Proof.
  intros Hpq [evs [H P]]. exists evs. split; [exact H|].
  rewrite forallb_forall in *. auto.
Qed.

(** Events that [q] rejects do not change the number of [q]-events. *)
Lemma extendsBy_count (p q : event -> bool) (w1 w2 : world server) :
  (forall e, p e = true -> q e = false) ->
  extendsBy p w1 w2 -> count q (log w2) = count q (log w1).
Proof.
  intros Hpq [evs [H P]]. unfold count. rewrite H, filter_app, length_app.
  replace (filter q evs) with (@nil event); [simpl; lia|].
  clear H. induction evs as [|e evs IH]; [reflexivity|].
  simpl in P. apply andb_true_iff in P as [Pe P].
  simpl. rewrite (Hpq e Pe). now apply IH.
Qed.

Lemma fetch_inv (r : request) (w w' : world server)
      (o : option (response r)) :
  fetch respond r w = (o, w') ->
  respond r (srv w) = (o, srv w') /\ log w' = log w ++ [Fetch r].
Proof.
  unfold fetch. destruct (respond r (srv w)) as [o' s'].
  intros H. injection H as -> <-. now split.
Qed.

Lemma fetch_log (r : request) (w : world server) :
  log (snd (fetch respond r w)) = log w ++ [Fetch r].
Proof.
  destruct (fetch respond r w) as [o w'] eqn:E.
  now destruct (fetch_inv _ _ E).
Qed.

Lemma fetch_extends (p : event -> bool) (r : request) (w : world server) :
  p (Fetch r) = true -> extendsBy p w (snd (fetch respond r w)).
Proof.
  intros H. exists [Fetch r]. split; [apply fetch_log|].
  simpl. now rewrite H.
Qed.

Lemma bind_extends (A B : Type) (p : event -> bool)
      (m : M server A) (k : A -> M server B) (w : world server) :
  extendsBy p w (snd (m w)) ->
  (forall a w1, extendsBy p w1 (snd (k a w1))) ->
  extendsBy p w (snd (bind m k w)).
Proof.
  intros Hm Hk. unfold bind. destruct (m w) as [[a|] w1]; simpl in *.
  - eapply extendsBy_trans; [exact Hm | apply Hk].
  - exact Hm.
Qed.

Lemma forEachAwait_extends (A B : Type) (p : event -> bool)
      (f : A -> M server B) (l : list A) :
  (forall a w, extendsBy p w (snd (f a w))) ->
  forall w : world server, extendsBy p w (snd (forEachAwait f l w)).
Proof.
  intros Hf. induction l as [|a l IH]; intros w.
  - apply extendsBy_refl.
  - cbn [forEachAwait]. apply bind_extends; [apply Hf|].
    intros b w1. apply bind_extends; [apply IH|].
    intros bs w2. apply extendsBy_refl.
Qed.

(** A successful loop ran [f] on every element, in order. *)
Lemma forEachAwait_ok (A B : Type) (f : A -> M server B) (l : list A) :
  forall w bs w',
    forEachAwait f l w = (Some bs, w') ->
    Forall2 (fun a b => exists w1 w2, f a w1 = (Some b, w2)) l bs.
Proof.
  induction l as [|a l IH]; intros w bs w' H.
  - injection H as <- _. constructor.
  - cbn [forEachAwait] in H. unfold bind in H.
    destruct (f a w) as [[b|] w1] eqn:Ea; [|discriminate].
    destruct (forEachAwait f l w1) as [[bs'|] w2] eqn:El; [|discriminate].
    injection H as <- _. constructor; [now exists w, w1 | eapply IH; eauto].
Qed.

Lemma fetchChangePaths_readOnly (w : world server) :
  extendsBy readOnly w (snd (fetchChangePaths respond w)).
Proof.
  unfold fetchChangePaths. apply bind_extends.
  - now apply fetch_extends.
  - intros [] w1; apply extendsBy_refl.
Qed.

Lemma fetchChangeDetail_readOnly (filePath : string) (w : world server) :
  extendsBy readOnly w (snd (fetchChangeDetail respond filePath w)).
Proof.
  unfold fetchChangeDetail. apply bind_extends.
  - now apply fetch_extends.
  - intros [] w1; apply extendsBy_refl.
Qed.

Lemma fetchChanges_readOnly (w : world server) :
  extendsBy readOnly w (snd (fetchChanges respond w)).
Proof.
  unfold fetchChanges. apply bind_extends.
  - apply fetchChangePaths_readOnly.
  - intros files w1. apply forEachAwait_extends. intros f w2.
    apply bind_extends; [apply fetchChangeDetail_readOnly|].
    intros x w3. apply extendsBy_refl.
Qed.

Lemma getParentComment_readOnly (w : world server) :
  extendsBy readOnly w (snd (getParentComment respond w)).
Proof.
  unfold getParentComment. apply bind_extends.
  - now apply fetch_extends.
  - intros [] w1; apply extendsBy_refl.
Qed.


End ClientFacts.

(* ------------------------------------------------------------------ *)
(** ** extractSegments *)
(* ------------------------------------------------------------------ *)

Lemma fold_concat_hunks (hs : list hunk) (acc : list segment) :
  fold_left (fun segments hunk => segments ++ hunk_segments hunk) hs acc
  = acc ++ flat_map hunk_segments hs.
Proof.
  revert acc; induction hs as [|h hs IH]; intros acc; simpl.
  - now rewrite app_nil_r.
  - now rewrite IH, app_assoc.
Qed.

Lemma fold_concat_diffs (ds : list diff) (acc : list segment) :
  fold_left
    (fun segments diff =>
       match hunks diff with
       | None => segments
       | Some hs =>
           fold_left (fun segments hunk => segments ++ hunk_segments hunk)
                     hs segments
       end) ds acc
  = acc ++ flat_map hunk_segments (flat_map hunksOf ds).
Proof.
  revert acc; induction ds as [|d ds IH]; intros acc; simpl.
  - now rewrite app_nil_r.
  - rewrite IH, flat_map_app. unfold hunksOf at 2.
    destruct (hunks d) as [hs|]; simpl; [|reflexivity].
    now rewrite fold_concat_hunks, app_assoc.
Qed.

Lemma taggedLines_app (a b : list segment) :
  taggedLines (a ++ b) = taggedLines a ++ taggedLines b.
Proof. apply flat_map_app. Qed.

(** C7.  [extractSegments] returns the empty list, and raises nothing, for
    an absent and for an empty [diffs]; otherwise it returns the segments of
    all hunks of all diff entries, in source order, where an entry without
    hunks contributes nothing; so the lines come out in source order, each
    with the change kind of its segment. *)
Theorem extractSegments_flattens :
  extractSegments None = []
  /\ extractSegments (Some []) = []
  /\ (forall ds,
        extractSegments (Some ds)
        = flat_map hunk_segments (flat_map hunksOf ds))
  /\ (forall pre post,
        extractSegments (Some (pre ++ Diff None :: post))
        = extractSegments (Some (pre ++ post)))
  /\ (forall ds,
        taggedLines (extractSegments (Some ds))
        = flat_map
            (fun d =>
               flat_map (fun h => taggedLines (hunk_segments h)) (hunksOf d))
            ds).
Proof.
  assert (E : forall ds, extractSegments (Some ds)
                         = flat_map hunk_segments (flat_map hunksOf ds)).
  { intros ds. unfold extractSegments. now rewrite fold_concat_diffs. }
  repeat split; try reflexivity; try exact E.
  - intros pre post. now rewrite !E, !flat_map_app.
  - intros ds. rewrite E. induction ds as [|d ds IH]; [reflexivity|].
    cbn [flat_map]. rewrite flat_map_app, taggedLines_app, IH. f_equal.
    generalize (hunksOf d) as hs. induction hs as [|h hs IHh]; [reflexivity|].
    cbn [flat_map]. now rewrite taggedLines_app, IHh.
Qed.

(* ------------------------------------------------------------------ *)
(** ** The four analysers *)
(* ------------------------------------------------------------------ *)

Lemma existsb_false_iff (A : Type) (p : A -> bool) (l : list A) :
  existsb p l = false <-> forall a, In a l -> p a = false.
Proof.
  induction l as [|x l IH]; simpl.
  - split; [intros _ a [] | reflexivity].
  - rewrite orb_false_iff, IH. split.
    + intros [Hx Hl] a [<-|Ha]; auto.
    + intros H. split; [apply H; now left | intros a Ha; apply H; now right].
Qed.

Lemma analyseNumberOfChanges_eq (changes : list changedFile) :
  analyseNumberOfChanges changes
  = if (100 <? List.length (addedLines "js" changes)
               + List.length (addedLines "java" changes))%nat
    then [significantChangesTask] else [].
Proof.
  unfold analyseNumberOfChanges, pushIf. rewrite !checkLines_counter.
  now destruct (100 <? _)%nat.
Qed.

(** C3.  [analyseNumberOfChanges] counts the ADDED lines of the files whose
    extension is [js] and of those whose extension is [java]; it emits its
    one finding when the sum exceeds 100 and nothing otherwise: one finding
    at 101 lines, none at 100. *)
Theorem analyseNumberOfChanges_threshold (changes : list changedFile) :
  let n := (List.length (addedLines "js" changes)
            + List.length (addedLines "java" changes))%nat in
  analyseNumberOfChanges changes
  = (if (100 <? n)%nat then [significantChangesTask] else [])
  /\ (n = 101%nat -> List.length (analyseNumberOfChanges changes) = 1%nat)
  /\ (n = 100%nat -> List.length (analyseNumberOfChanges changes) = 0%nat).
Proof.
  intros n.
  assert (E : analyseNumberOfChanges changes
              = if (100 <? n)%nat then [significantChangesTask] else []).
  { apply analyseNumberOfChanges_eq. }
  split; [exact E|]. rewrite E. split; intros ->; reflexivity.
Qed.

Lemma analyseNumberOfChanges_threshold_witness :
  let c101 := [Samples.jsFile 50; Samples.otherFile "docs/notes.txt";
               Samples.javaFile (repeat "int x;" 51)] in
  let c100 := [Samples.jsFile 40; Samples.javaFile (repeat "int x;" 60)] in
  List.length (analyseNumberOfChanges c101) = 1%nat
  /\ List.length (analyseNumberOfChanges c100) = 0%nat.
Proof.
  intros c101 c100. split.
  - apply (analyseNumberOfChanges_threshold c101). reflexivity.
  - apply (analyseNumberOfChanges_threshold c100). reflexivity.
Defined.

Lemma analyseDBScriptSynergy_mssql_only (changes : list changedFile) :
  touches changes "/mssql/" -> ~ touches changes "/oracle/" ->
  analyseDBScriptSynergy changes = [mssqlNotOracleTask; notifyTeamTask].
Proof.
  intros Hm Ho. unfold analyseDBScriptSynergy.
  apply checkPaths_touches in Hm. apply checkPaths_not_touches in Ho.
  now rewrite Hm, Ho.
Qed.

(** C4.  [analyseDBScriptSynergy] looks for [/mssql/] and [/oracle/] as
    plain substrings of the paths.  Paths with [/mssql/] and none with
    [/oracle/]: the asymmetry finding and the notify finding.  Both: the
    notify finding alone.  Neither: nothing.  (And [/oracle/] alone: the
    other asymmetry finding and the notify finding.) *)
Theorem analyseDBScriptSynergy_cases (changes : list changedFile) :
  (touches changes "/mssql/" -> ~ touches changes "/oracle/" ->
   analyseDBScriptSynergy changes = [mssqlNotOracleTask; notifyTeamTask])
  /\ (touches changes "/mssql/" -> touches changes "/oracle/" ->
      analyseDBScriptSynergy changes = [notifyTeamTask])
  /\ (~ touches changes "/mssql/" -> ~ touches changes "/oracle/" ->
      analyseDBScriptSynergy changes = [])
  /\ (~ touches changes "/mssql/" -> touches changes "/oracle/" ->
      analyseDBScriptSynergy changes = [oracleNotMssqlTask; notifyTeamTask]).
Proof.
  unfold analyseDBScriptSynergy.
  repeat split; intros Hm Ho;
    first [apply checkPaths_touches in Hm | apply checkPaths_not_touches in Hm];
    first [apply checkPaths_touches in Ho | apply checkPaths_not_touches in Ho];
    rewrite Hm, Ho; reflexivity.
Qed.

Lemma analyseDBScriptSynergy_cases_witness :
  let onlyMssql := [Samples.jsFile 1; Samples.otherFile "app/db/mssql/v2/readme.txt"] in
  let both := [Samples.sqlFile "db/mssql/t.sql" ["x"]; Samples.sqlFile "db/oracle/t.sql" ["x"]] in
  let neither := [Samples.jsFile 1; Samples.otherFile "docs/mssql-oracle.txt"] in
  (touches onlyMssql "/mssql/" /\ ~ touches onlyMssql "/oracle/"
   /\ analyseDBScriptSynergy onlyMssql = [mssqlNotOracleTask; notifyTeamTask])
  /\ (touches both "/mssql/" /\ touches both "/oracle/"
      /\ analyseDBScriptSynergy both = [notifyTeamTask])
  /\ (~ touches neither "/mssql/" /\ ~ touches neither "/oracle/"
      /\ analyseDBScriptSynergy neither = []).
Proof.
  intros onlyMssql both neither.
  assert (M1 : touches onlyMssql "/mssql/")
    by (apply checkPaths_touches; reflexivity).
  assert (O1 : ~ touches onlyMssql "/oracle/")
    by (apply checkPaths_not_touches; reflexivity).
  assert (M2 : touches both "/mssql/")
    by (apply checkPaths_touches; reflexivity).
  assert (O2 : touches both "/oracle/")
    by (apply checkPaths_touches; reflexivity).
  assert (M3 : ~ touches neither "/mssql/")
    by (apply checkPaths_not_touches; reflexivity).
  assert (O3 : ~ touches neither "/oracle/")
    by (apply checkPaths_not_touches; reflexivity).
  split; [|split]; (split; [assumption | split; [assumption|]]).
  - exact (proj1 (analyseDBScriptSynergy_cases onlyMssql) M1 O1).
  - exact (proj1 (proj2 (analyseDBScriptSynergy_cases both)) M2 O2).
  - exact (proj1 (proj2 (proj2 (analyseDBScriptSynergy_cases neither)))
                 M3 O3).
Defined.

(** The added [.sql] lines in which [sub] occurs in some letter case. *)
Lemma sql_flag_iff (changes : list changedFile) (sub : string) :
  toLowerCase sub = sub ->
  (checkLines changes "sql"
     (fun line b => if includes (toLowerCase line) sub then true else b) false
   = true
   <-> exists l, In l (addedLines "sql" changes) /\ containsIgnoreCase l sub).
Proof.
  intros Hsub.
  rewrite (checkLines_flag changes "sql"
             (fun line => includes (toLowerCase line) sub)).
  rewrite existsb_exists.
  split; intros [l [Hin H]]; exists l; split; auto;
    now apply (includes_toLowerCase_iff l Hsub).
Qed.

Lemma analyseDropScriptsNeeded_create_only (changes : list changedFile) :
  (exists l, In l (addedLines "sql" changes)
             /\ containsIgnoreCase l "create table") ->
  (forall l, In l (addedLines "sql" changes) ->
             ~ containsIgnoreCase l "drop table") ->
  analyseDropScriptsNeeded changes = [dropScriptsTask].
Proof.
  unfold analyseDropScriptsNeeded. intros Hc Hd.
  apply (sql_flag_iff changes (sub := "create table") eq_refl) in Hc.
  rewrite Hc.
  destruct (checkLines changes "sql"
              (fun line b =>
                 if includes (toLowerCase line) "drop table" then true else b)
              false) eqn:E; [|reflexivity].
  apply (sql_flag_iff changes (sub := "drop table") eq_refl) in E.
  destruct E as [l [Hin H]]. now destruct (Hd l Hin).
Qed.

(** C5.  [analyseDropScriptsNeeded] searches the ADDED lines of the [sql]
    files for [create table] and for [drop table] without regard to letter
    case.  A line with a create-table and no line with a drop-table: one
    finding.  Any line with a drop-table, in any letter case: none. *)
Theorem analyseDropScriptsNeeded_cases (changes : list changedFile) :
  ((exists l, In l (addedLines "sql" changes)
              /\ containsIgnoreCase l "create table") ->
   (forall l, In l (addedLines "sql" changes) ->
              ~ containsIgnoreCase l "drop table") ->
   analyseDropScriptsNeeded changes = [dropScriptsTask])
  /\ ((exists l, In l (addedLines "sql" changes)
                 /\ containsIgnoreCase l "drop table") ->
      analyseDropScriptsNeeded changes = []).
Proof.
  split.
  - apply analyseDropScriptsNeeded_create_only.
  - unfold analyseDropScriptsNeeded. intros Hd.
    apply (sql_flag_iff changes (sub := "drop table") eq_refl) in Hd.
    rewrite Hd. now rewrite andb_false_r.
Qed.

Lemma analyseDropScriptsNeeded_cases_witness :
  let created := [Samples.sqlFile "install/tables.sql" ["CREATE TABLE foo"];
                  Samples.javaFile ["// drop table foo"]] in
  let dropped := [Samples.sqlFile "install/tables.sql" ["CREATE TABLE foo"];
                  Samples.sqlFile "uninstall/tables.sql" ["Drop Table foo"]] in
  analyseDropScriptsNeeded created = [dropScriptsTask]
  /\ analyseDropScriptsNeeded dropped = [].
Proof.
  intros created dropped. split.
  - apply (proj1 (analyseDropScriptsNeeded_cases created)).
    + exists "CREATE TABLE foo". split; [now left|].
      now exists "", "CREATE TABLE", " foo".
    + intros l [<-|[]]. intros H.
      apply (includes_toLowerCase_iff "CREATE TABLE foo"
               (sub := "drop table") eq_refl) in H.
      discriminate H.
  - apply (proj2 (analyseDropScriptsNeeded_cases dropped)).
    exists "Drop Table foo". split; [right; now left|].
    now exists "", "Drop Table", " foo".
Defined.

Lemma dotEquals_flag_iff (changes : list changedFile) :
  checkLines changes "java"
    (fun line b =>
       if includes line ".equals" && negb (includes line "StringUtils")
       then true else b) false = true
  <-> exists l, In l (addedLines "java" changes)
                /\ contains l ".equals" /\ ~ contains l "StringUtils".
Proof.
  rewrite (checkLines_flag changes "java"
             (fun line => includes line ".equals"
                          && negb (includes line "StringUtils"))).
  rewrite existsb_exists.
  split; intros [l [Hin H]]; exists l; split; auto.
  - apply andb_true_iff in H as [H1 H2]. apply negb_true_iff in H2.
    split; [now apply includes_iff | now apply includes_false_iff].
  - destruct H as [H1 H2]. apply includes_iff in H1.
    apply includes_false_iff in H2. now rewrite H1, H2.
Qed.

(** C6.  [analyseUseOfDotEquals] emits its one finding exactly when some
    ADDED line of some [java] file contains [.equals] and does not contain
    [StringUtils]; otherwise it emits nothing.  A line [a.equals(b)] gives
    the finding; a line [StringUtils.equals(a,b)] adds nothing to any
    change set. *)
Theorem analyseUseOfDotEquals_iff (changes : list changedFile) :
  let flagged :=
    exists l, In l (addedLines "java" changes)
              /\ contains l ".equals" /\ ~ contains l "StringUtils" in
  (analyseUseOfDotEquals changes = [dotEqualsTask] <-> flagged)
  /\ (analyseUseOfDotEquals changes = [] <-> ~ flagged)
  /\ (List.length (analyseUseOfDotEquals changes) = 1%nat <-> flagged)
  /\ analyseUseOfDotEquals [Samples.javaFile ["a.equals(b)"]] = [dotEqualsTask]
  /\ analyseUseOfDotEquals [Samples.javaFile ["StringUtils.equals(a,b)"]] = []
  /\ analyseUseOfDotEquals
       (Samples.javaFile ["StringUtils.equals(a,b)"] :: changes)
     = analyseUseOfDotEquals changes.
Proof.
  intros flagged.
  pose proof (dotEquals_flag_iff changes) as F. fold flagged in F.
  assert (D : analyseUseOfDotEquals changes
              = if checkLines changes "java"
                     (fun line b =>
                        if includes line ".equals"
                           && negb (includes line "StringUtils")
                        then true else b) false
                then [dotEqualsTask] else []) by reflexivity.
  split; [|split; [|split; [|split; [|split]]]];
    try reflexivity; rewrite D;
    destruct (checkLines changes "java" _ false);
    split; intros H; try reflexivity; try discriminate;
    try (now apply F); try (apply F in H; discriminate);
    try (exfalso; apply H; now apply F);
    try (intros G; apply F in G; discriminate).
Qed.

Lemma analyseUseOfDotEquals_iff_witness :
  let c := [Samples.jsFile 3;
            Samples.javaFile ["StringUtils.equals(a,b)"; "a.equals(b)"]] in
  (exists l, In l (addedLines "java" c)
             /\ contains l ".equals" /\ ~ contains l "StringUtils")
  /\ analyseUseOfDotEquals c = [dotEqualsTask].
Proof.
  intros c.
  assert (F : exists l, In l (addedLines "java" c)
                        /\ contains l ".equals" /\ ~ contains l "StringUtils").
  { exists "a.equals(b)". split; [right; now left|]. split.
    - now exists "a", "(b)".
    - now apply includes_false_iff. }
  split; [exact F|].
  exact (proj2 (proj1 (analyseUseOfDotEquals_iff c)) F).
Defined.

(* ------------------------------------------------------------------ *)
(** ** Only ADDED lines are read *)
(* ------------------------------------------------------------------ *)

Lemma filter_isAdded_idem (ss : list segment) :
  filter isAdded (filter isAdded ss) = filter isAdded ss.
Proof.
  induction ss as [|g ss IH]; [reflexivity|].
  cbn [filter]. destruct (isAdded g) eqn:E; [|exact IH].
  cbn [filter]. now rewrite E, IH.
Qed.

Lemma addedSegments_keepAdded (ext : string) (changes : list changedFile) :
  addedSegments ext (map keepAdded changes) = addedSegments ext changes.
Proof.
  unfold addedSegments. induction changes as [|f changes IH]; [reflexivity|].
  cbn [map filter].
  replace (hasExtension ext (keepAdded f)) with (hasExtension ext f)
    by reflexivity.
  destruct (hasExtension ext f); [|exact IH].
  cbn [flat_map]. rewrite IH. f_equal. apply filter_isAdded_idem.
Qed.

Lemma addedLines_In (ext : string) (changes : list changedFile)
      (x : string) :
  In x (addedLines ext changes)
  <-> exists f s l,
        In f changes /\ extension f = ext
        /\ In s (segments f) /\ type s = "ADDED"
        /\ In l (lines s) /\ line l = x.
Proof.
  unfold addedLines, addedSegments. rewrite in_flat_map. split.
  - intros [s [Hs Hx]]. apply in_flat_map in Hs as [f [Hf Hs]].
    apply filter_In in Hf as [Hf He]. apply filter_In in Hs as [Hs Ha].
    apply in_map_iff in Hx as [l [Hl Hin]].
    exists f, s, l. repeat split; auto;
      [now apply String.eqb_eq in He | now apply String.eqb_eq in Ha].
  - intros [f [s [l [Hf [He [Hs [Ha [Hl Hx]]]]]]]].
    exists s. split.
    + apply in_flat_map. exists f. split; apply filter_In; split; auto;
        [now apply String.eqb_eq | now apply String.eqb_eq].
    + apply in_map_iff. now exists l.
Qed.

Lemma fold_collect (ls acc : list string) :
  fold_left (fun (seen : list string) l => seen ++ [l]) ls acc = acc ++ ls.
Proof.
  revert acc; induction ls as [|l ls IH]; intros acc; simpl.
  - now rewrite app_nil_r.
  - now rewrite IH, <- app_assoc.
Qed.

(** C9.  The three line-scanning analysers depend on a change set only
    through the ADDED segments of the files with the extension they scan:
    two change sets with the same ADDED segments in those files, whatever
    their other segments, get the same findings; in particular, dropping
    every REMOVED and CONTEXT segment changes no finding.  And they read
    every ADDED line of those files: the scan passes each line of each
    ADDED segment of each file with the extension to the callback, in
    order, and no other line; the volume finding counts all of them, and
    the drop-script and dot-equals findings are decided by whether any one
    of them, wherever it stands, has the text looked for. *)
Theorem analysers_read_only_added (c1 c2 : list changedFile) :
  (addedSegments "js" c1 = addedSegments "js" c2 ->
   addedSegments "java" c1 = addedSegments "java" c2 ->
   analyseNumberOfChanges c1 = analyseNumberOfChanges c2)
  /\ (addedSegments "sql" c1 = addedSegments "sql" c2 ->
      analyseDropScriptsNeeded c1 = analyseDropScriptsNeeded c2)
  /\ (addedSegments "java" c1 = addedSegments "java" c2 ->
      analyseUseOfDotEquals c1 = analyseUseOfDotEquals c2)
  /\ (analyseNumberOfChanges (map keepAdded c1) = analyseNumberOfChanges c1
      /\ analyseDropScriptsNeeded (map keepAdded c1)
         = analyseDropScriptsNeeded c1
      /\ analyseUseOfDotEquals (map keepAdded c1) = analyseUseOfDotEquals c1)
  /\ (forall ext,
        checkLines c1 ext (fun l seen => seen ++ [l]) [] = addedLines ext c1)
  /\ (forall ext x,
        In x (addedLines ext c1)
        <-> exists f s l,
              In f c1 /\ extension f = ext
              /\ In s (segments f) /\ type s = "ADDED"
              /\ In l (lines s) /\ line l = x)
  /\ analyseNumberOfChanges c1
     = (if (100 <? List.length (addedLines "js" c1)
                   + List.length (addedLines "java" c1))%nat
        then [significantChangesTask] else [])
  /\ (analyseDropScriptsNeeded c1 = [dropScriptsTask]
      <-> (exists l, In l (addedLines "sql" c1)
                     /\ containsIgnoreCase l "create table")
          /\ (forall l, In l (addedLines "sql" c1) ->
                        ~ containsIgnoreCase l "drop table"))
  /\ (analyseUseOfDotEquals c1 = [dotEqualsTask]
      <-> exists l, In l (addedLines "java" c1)
                    /\ contains l ".equals" /\ ~ contains l "StringUtils").
Proof.
  split; [|split; [|split; [|split; [|split; [|split; [|split; [|split]]]]]]].
  - unfold analyseNumberOfChanges. intros.
    rewrite !checkLines_addedLines; unfold addedLines; congruence.
  - unfold analyseDropScriptsNeeded. intros.
    rewrite !checkLines_addedLines; unfold addedLines; congruence.
  - unfold analyseUseOfDotEquals. intros.
    rewrite !checkLines_addedLines; unfold addedLines; congruence.
  - unfold analyseNumberOfChanges, analyseDropScriptsNeeded,
      analyseUseOfDotEquals.
    repeat split; rewrite !checkLines_addedLines; unfold addedLines;
      rewrite ?addedSegments_keepAdded; congruence.
  - intros ext. rewrite checkLines_addedLines.
    apply (fold_collect (addedLines ext c1) []).
  - intros ext x. apply addedLines_In.
  - apply analyseNumberOfChanges_eq.
  - split.
    + unfold analyseDropScriptsNeeded, pushIf.
      pose proof (sql_flag_iff c1 (sub := "create table") eq_refl) as Fc.
      pose proof (sql_flag_iff c1 (sub := "drop table") eq_refl) as Fd.
      destruct (checkLines c1 "sql"
                  (fun line b =>
                     if includes (toLowerCase line) "create table"
                     then true else b) false);
        destruct (checkLines c1 "sql"
                    (fun line b =>
                       if includes (toLowerCase line) "drop table"
                       then true else b) false);
        cbn [andb negb]; try discriminate.
      intros _. split; [now apply Fc|].
      intros l Hl Hd.
      assert (X : false = true) by (apply Fd; now exists l).
      discriminate X.
    + intros [Hc Hd]. now apply analyseDropScriptsNeeded_create_only.
  - pose proof (dotEquals_flag_iff c1) as F.
    unfold analyseUseOfDotEquals, pushIf.
    destruct (checkLines c1 "java" _ false).
    + split; [intros _; now apply F | reflexivity].
    + split; [discriminate | intros H; apply F in H; discriminate].
Qed.

Lemma analysers_read_only_added_witness :
  let c1 :=
    [ChangedFile "a/X.java" "X.java" "java"
       [Samples.removed ["old.equals(x)"]; Samples.added ["a.equals(b)"];
        Samples.context ["}"]];
     ChangedFile "db/t.sql" "t.sql" "sql"
       [Samples.context ["drop table t"]; Samples.added ["create table t"]];
     Samples.jsFile 120] in
  let c2 :=
    [ChangedFile "a/X.java" "X.java" "java"
       [Samples.added ["a.equals(b)"]; Samples.removed (repeat "gone" 300)];
     ChangedFile "db/t.sql" "t.sql" "sql"
       [Samples.added ["create table t"]; Samples.removed ["create table u"]];
     ChangedFile "web/src/app.js" "app.js" "js"
       [Samples.added (repeat "  step();" 120)]] in
  let c3 :=
    [ChangedFile "a/Y.java" "Y.java" "java"
       [Samples.added ["int i;"; "int j;"]; Samples.context ["}"];
        Samples.added ["int k;"; "return a.equals(b);"]]] in
  c1 <> c2
  /\ analyseNumberOfChanges c1 = analyseNumberOfChanges c2
  /\ analyseDropScriptsNeeded c1 = analyseDropScriptsNeeded c2
  /\ analyseUseOfDotEquals c1 = analyseUseOfDotEquals c2
  /\ analyseUseOfDotEquals c3 = [dotEqualsTask].
Proof.
  intros c1 c2 c3. split; [discriminate|].
  destruct (analysers_read_only_added c1 c2) as [V [D [E _]]].
  destruct (analysers_read_only_added c3 c3)
    as [_ [_ [_ [_ [_ [In3 [_ [_ J]]]]]]]].
  split; [|split; [|split]].
  - apply V; reflexivity.
  - apply D; reflexivity.
  - apply E; reflexivity.
  - apply J. exists "return a.equals(b);". split; [|split].
    + apply In3.
      exists (ChangedFile "a/Y.java" "Y.java" "java"
                [Samples.added ["int i;"; "int j;"]; Samples.context ["}"];
                 Samples.added ["int k;"; "return a.equals(b);"]]),
        (Samples.added ["int k;"; "return a.equals(b);"]),
        (LineItem "return a.equals(b);").
      repeat split; simpl; auto.
    + now exists "return a", "(b);".
    + now apply includes_false_iff.
Defined.

(* ------------------------------------------------------------------ *)
(** ** Bounds on the findings *)
(* ------------------------------------------------------------------ *)

Lemma pushIf_length (c : bool) (t : string) (tasks : list string) :
  (List.length (pushIf c t tasks) <= List.length tasks + 1)%nat.
Proof. unfold pushIf. destruct c; [rewrite length_app; simpl|]; lia. Qed.

Lemma analyseNumberOfChanges_le1 (changes : list changedFile) :
  (List.length (analyseNumberOfChanges changes) <= 1)%nat.
Proof. unfold analyseNumberOfChanges. apply (pushIf_length _ _ []). Qed.

Lemma analyseDBScriptSynergy_le2 (changes : list changedFile) :
  (List.length (analyseDBScriptSynergy changes) <= 2)%nat.
Proof.
  unfold analyseDBScriptSynergy.
  destruct (checkPaths changes "/mssql/" _ false),
    (checkPaths changes "/oracle/" _ false); simpl; lia.
Qed.

Lemma analyseDropScriptsNeeded_le1 (changes : list changedFile) :
  (List.length (analyseDropScriptsNeeded changes) <= 1)%nat.
Proof. unfold analyseDropScriptsNeeded. apply (pushIf_length _ _ []). Qed.

Lemma analyseUseOfDotEquals_le1 (changes : list changedFile) :
  (List.length (analyseUseOfDotEquals changes) <= 1)%nat.
Proof. unfold analyseUseOfDotEquals. apply (pushIf_length _ _ []). Qed.

Lemma collectTasks_eq (changes : list changedFile) :
  collectTasks changes
  = analyseNumberOfChanges changes ++ analyseDBScriptSynergy changes
    ++ analyseDropScriptsNeeded changes ++ analyseUseOfDotEquals changes.
Proof. unfold collectTasks. simpl. now rewrite <- !app_assoc. Qed.

Lemma collectTasks_le5 (changes : list changedFile) :
  (List.length (collectTasks changes) <= 5)%nat.
Proof.
  rewrite collectTasks_eq, !length_app.
  pose proof (analyseNumberOfChanges_le1 changes).
  pose proof (analyseDBScriptSynergy_le2 changes).
  pose proof (analyseDropScriptsNeeded_le1 changes).
  pose proof (analyseUseOfDotEquals_le1 changes). lia.
Qed.

(* ------------------------------------------------------------------ *)
(** ** The run of [analyse] *)
(* ------------------------------------------------------------------ *)

Section AnalyseFacts.
Variable server : Type.
Variable respond : forall r : request, server -> option (response r) * server.
Variable prid : string.

Lemma readOnly_not_task (e : event) :
  readOnly e = true -> isCreateTask e = false.
Proof. destruct e as [[]|]; simpl; congruence. Qed.

Lemma readOnly_not_comment (e : event) :
  readOnly e = true -> isCreateComment e = false.
Proof. destruct e as [[]|]; simpl; congruence. Qed.

Lemma count_app (p : event -> bool) (l1 l2 : list event) :
  count p (l1 ++ l2) = (count p l1 + count p l2)%nat.
Proof. unfold count. now rewrite filter_app, length_app. Qed.

Lemma count_taskCreated (cid : Z) (ts : list string) :
  count isCreateTask (map (taskCreated prid cid) ts) = List.length ts.
Proof.
  unfold count. induction ts as [|t ts IH]; [reflexivity|].
  simpl. now rewrite IH.
Qed.

(** [addParentComment] posts the comment first, whatever the feed holds,
    and only reads afterwards. *)
Lemma addParentComment_log (w : world server) :
  exists evs,
    log (snd (addParentComment respond w))
    = log w ++ Fetch (POST_comments PARENT_COMMENT_TEXT) :: evs
    /\ forallb readOnly evs = true.
Proof.
  unfold addParentComment, bind.
  destruct (fetch respond (POST_comments PARENT_COMMENT_TEXT) w)
    as [[r|] w1] eqn:E; destruct (fetch_inv _ _ _ E) as [_ Hl].
  - destruct (getParentComment_readOnly respond w1) as [evs [H P]].
    exists evs. split; [|exact P].
    rewrite H, Hl, <- app_assoc. reflexivity.
  - exists []. split; [exact Hl | reflexivity].
Qed.


Lemma addParentComment_no_task (w : world server) :
  count isCreateTask (log (snd (addParentComment respond w)))
  = count isCreateTask (log w).
Proof.
  destruct (addParentComment_log w) as [evs [H P]].
  apply extendsBy_count with (p := fun e => negb (isCreateTask e)).
  - intros e. now destruct (isCreateTask e).
  - exists (Fetch (POST_comments PARENT_COMMENT_TEXT) :: evs).
    split; [exact H|]. simpl. rewrite forallb_forall in *.
    intros e He. apply P in He. now destruct e as [[]|].
Qed.


Lemma forEachAwait_cons (A B : Type) (f : A -> M server B) (a : A)
      (l : list A) (w : world server) :
  forEachAwait f (a :: l) w
  = match f a w with
    | (Some b, w1) =>
        match forEachAwait f l w1 with
        | (Some bs, w2) => (Some (b :: bs), w2)
        | (None, w2) => (None, w2)
        end
    | (None, w1) => (None, w1)
    end.
Proof. reflexivity. Qed.

Lemma addTask_log (t : string) (cid : Z) (w : world server) :
  log (snd (addTask respond prid t cid w))
  = log w ++ [taskCreated prid cid t].
Proof.
  unfold addTask, bind.
  destruct (fetch respond (POST_tasks cid prid t "OPEN") w)
    as [[resp|] w1] eqn:E; now destruct (fetch_inv _ _ _ E).
Qed.

(** The loop of lines 229-231 posts the tasks in list order and stops at
    the first failure. *)
Lemma addTask_loop_log (cid : Z) (ts : list string) (w : world server) :
  exists k,
    (k <= List.length ts)%nat
    /\ log (snd (forEachAwait (fun t => addTask respond prid t cid) ts w))
       = log w ++ map (taskCreated prid cid) (firstn k ts)
    /\ (forall r,
          fst (forEachAwait (fun t => addTask respond prid t cid) ts w)
          = Some r -> k = List.length ts).
Proof.
  revert w; induction ts as [|t ts IH]; intros w.
  - exists 0%nat. simpl. rewrite app_nil_r. repeat split; auto.
  - rewrite forEachAwait_cons. pose proof (addTask_log t cid w) as Hl.
    destruct (addTask respond prid t cid w) as [[a|] w1]; cbn [snd] in Hl.
    + destruct (IH w1) as [k [Hk [Hlog Hok]]]. exists (S k).
      destruct (forEachAwait _ ts w1) as [[bs|] w2]; cbn [fst snd] in *;
        (split; [simpl; lia|]); (split;
          [rewrite Hlog, Hl, <- app_assoc; reflexivity|]).
      * intros r _. simpl. f_equal. now apply (Hok bs).
      * discriminate.
    + exists 1%nat. cbn [fst snd]. split; [simpl; lia|]. split.
      * rewrite Hl. reflexivity.
      * discriminate.
Qed.

Lemma analyse_task_bound (w : world server) :
  (count isCreateTask (log (snd (analyse respond prid w)))
   <= count isCreateTask (log w) + 5)%nat.
Proof.
  unfold analyse. unfold bind at 1.
  pose proof (addParentComment_no_task w) as H0.
  destruct (addParentComment respond w) as [[[item|]|] w1];
    cbn [snd] in H0; cbn [throw snd]; try lia.
  destruct (activity_comment item) as [c|]; cbn [throw snd]; try lia.
  unfold bind at 1.
  pose proof (extendsBy_count isCreateTask readOnly_not_task
                (fetchChanges_readOnly respond w1)) as H1.
  destruct (fetchChanges respond w1) as [[changes|] w2];
    cbn [snd] in H1; cbn [snd]; try lia.
  unfold bind.
  destruct (addTask_loop_log (id c) (rev (collectTasks changes)) w2)
    as [k [Hk [Hlog _]]].
  rewrite length_rev in Hk. pose proof (collectTasks_le5 changes) as H5.
  destruct (forEachAwait _ (rev (collectTasks changes)) w2) as [[r|] w3];
    cbn [snd] in *; unfold reload; cbn [snd log];
    rewrite Hlog, ?count_app, count_taskCreated, length_firstn,
      length_rev;
    change (count isCreateTask [Reload]) with 0%nat; lia.
Qed.

(** A run of [analyse] that completes has found the parent comment,
    fetched the changes, and posted one task per finding under that
    comment, last finding first, before reloading the page. *)
Lemma analyse_inv (w w' : world server) :
  analyse respond prid w = (Some tt, w') ->
  exists item c w1 changes w2,
    addParentComment respond w = (Some (Some item), w1)
    /\ activity_comment item = Some c
    /\ fetchChanges respond w1 = (Some changes, w2)
    /\ log w' = log w2
                ++ map (taskCreated prid (id c)) (rev (collectTasks changes))
                ++ [Reload].
Proof.
  unfold analyse. unfold bind at 1.
  destruct (addParentComment respond w) as [[[item|]|] w1]; try discriminate.
  destruct (activity_comment item) as [c|] eqn:Ec; try discriminate.
  unfold bind at 1.
  destruct (fetchChanges respond w1) as [[changes|] w2] eqn:Ef;
    try discriminate.
  unfold bind.
  destruct (addTask_loop_log (id c) (rev (collectTasks changes)) w2)
    as [k [Hk [Hlog Hok]]].
  destruct (forEachAwait _ (rev (collectTasks changes)) w2) as [[r|] w3];
    try discriminate.
  cbn [fst snd] in *. rewrite (Hok r eq_refl), firstn_all in Hlog.
  unfold reload. intros H. injection H as <-.
  exists item, c, w1, changes, w2. repeat split; auto.
  cbn [log]. now rewrite Hlog, <- app_assoc.
Qed.

End AnalyseFacts.

(* ------------------------------------------------------------------ *)
(** ** Fetching the change set *)
(* ------------------------------------------------------------------ *)

Section FetchFacts.
Variable server : Type.
Variable respond : forall r : request, server -> option (response r) * server.

Lemma fetchChangePaths_inv (w w' : world server) (files : list changedFile) :
  fetchChangePaths respond w = (Some files, w') ->
  exists values,
    respond GET_changes (srv w) = (Some (Page values), srv w')
    /\ map extension files
       = map (fun c => path_extension (change_path c)) values
    /\ map path files = map (fun c => path_toString (change_path c)) values.
Proof.
  unfold fetchChangePaths, bind.
  destruct (fetch respond GET_changes w) as [[resp|] w1] eqn:E;
    [|discriminate].
  destruct (fetch_inv _ _ _ E) as [Hr _].
  destruct resp as [values].
  intros H. injection H as <- <-. exists values.
  rewrite !map_map. now repeat split.
Qed.

(** The loop of [fetchChanges] fills in [segments] and nothing else. *)
Lemma fetchChanges_loop_keeps (l files : list changedFile)
      (w w' : world server) :
  forEachAwait
    (fun file =>
       bind (fetchChangeDetail respond (path file))
            (fun x => ret {| path := path file; name := name file;
                             extension := extension file; segments := x |}))
    l w = (Some files, w') ->
  map extension files = map extension l /\ map path files = map path l.
Proof.
  intros H. apply forEachAwait_ok in H.
  induction H as [|a b l files [w1 [w2 Hab]] _ IH]; [now split|].
  unfold bind in Hab.
  destruct (fetchChangeDetail respond (path a) w1) as [[x|] w3];
    [|discriminate].
  injection Hab as <- _. destruct IH as [IH1 IH2].
  simpl. now rewrite IH1, IH2.
Qed.

Lemma fetchChanges_inv (w w' : world server) (files : list changedFile) :
  fetchChanges respond w = (Some files, w') ->
  exists values s',
    respond GET_changes (srv w) = (Some (Page values), s')
    /\ map extension files
       = map (fun c => path_extension (change_path c)) values
    /\ map path files = map (fun c => path_toString (change_path c)) values.
Proof.
  unfold fetchChanges. unfold bind at 1.
  destruct (fetchChangePaths respond w) as [[l|] w1] eqn:E; [|discriminate].
  destruct (fetchChangePaths_inv _ E) as [values [Hr [He Hp]]].
  intros H. apply fetchChanges_loop_keeps in H as [H1 H2].
  exists values, (srv w1). rewrite H1, H2. now repeat split.
Qed.

Lemma checkLines_skips (S : Type) (f : changedFile)
      (rest : list changedFile) (ext : string)
      (callback : string -> S -> S) (s : S) :
  extension f <> ext ->
  checkLines (f :: rest) ext callback s = checkLines rest ext callback s.
Proof.
  intros H. apply String.eqb_neq in H. unfold checkLines.
  cbn [fold_left]. now rewrite H.
Qed.

Lemma find_none_parentComments (values : list activityItem) :
  find isParentComment values = None <-> parentComments values = 0%nat.
Proof.
  unfold parentComments. induction values as [|a values IH]; simpl.
  - now split.
  - destruct (isParentComment a); simpl; [split; discriminate | exact IH].
Qed.




End FetchFacts.

(* ------------------------------------------------------------------ *)
(** ** Runs against the in-memory review *)
(* ------------------------------------------------------------------ *)

Section InMemoryFacts.
Variable prid : string.

Lemma inMemory_fetch_loop (l : list changedFile)
      (w : world InMemory.review) :
  exists files w',
    forEachAwait
      (fun file =>
         bind (fetchChangeDetail InMemory.respond (path file))
              (fun x => ret {| path := path file; name := name file;
                               extension := extension file;
                               segments := x |}))
      l w = (Some files, w').
Proof.
  revert w; induction l as [|f l IH]; intros w.
  - now exists [], w.
  - rewrite forEachAwait_cons.
    change (bind (fetchChangeDetail InMemory.respond (path f)) _ w)
      with (Some {| path := path f; name := name f;
                    extension := extension f;
                    segments :=
                      extractSegments
                        (InMemory.diffOf (InMemory.diffs (srv w)) (path f)) |},
            World (srv w) (log w ++ [Fetch (GET_diff (path f))])).
    destruct (IH (World (srv w) (log w ++ [Fetch (GET_diff (path f))])))
      as [files [w' H]].
    rewrite H. eauto.
Qed.

Lemma inMemory_fetchChanges (w : world InMemory.review) :
  exists files w', fetchChanges InMemory.respond w = (Some files, w').
Proof. unfold fetchChanges, bind. cbn. apply inMemory_fetch_loop. Qed.

Lemma inMemory_addTask_loop (cid : Z) (ts : list string)
      (w : world InMemory.review) :
  exists r w',
    forEachAwait (fun t => addTask InMemory.respond prid t cid) ts w
    = (Some r, w').
Proof.
  revert w; induction ts as [|t ts IH]; intros w.
  - now exists [], w.
  - rewrite forEachAwait_cons. cbn.
    match goal with
    | |- context [forEachAwait _ ts ?w1] =>
        destruct (IH w1) as [r [w' H]]; rewrite H
    end.
    eauto.
Qed.

(** Against a server that answers every request, [analyse] always runs to
    completion. *)
Lemma inMemory_addParentComment (w : world InMemory.review) :
  exists w1,
    addParentComment InMemory.respond w
    = (Some (Some (ActivityItem
                     (Some (Comment (InMemory.nextId (srv w))
                                    PARENT_COMMENT_TEXT [])))), w1).
Proof. eexists. reflexivity. Qed.

Lemma inMemory_analyse_returns (w : world InMemory.review) :
  fst (analyse InMemory.respond prid w) = Some tt.
Proof.
  unfold analyse. unfold bind at 1.
  destruct (inMemory_addParentComment w) as [w1 H1]. rewrite H1.
  cbn [activity_comment id]. unfold bind at 1.
  destruct (inMemory_fetchChanges w1) as [files [w2 H2]]. rewrite H2.
  unfold bind.
  destruct (inMemory_addTask_loop (InMemory.nextId (srv w))
              (rev (collectTasks files)) w2) as [r [w3 H3]].
  rewrite H3. reflexivity.
Qed.

End InMemoryFacts.

(* ------------------------------------------------------------------ *)
(** ** The parent comment *)
(* ------------------------------------------------------------------ *)




(* ------------------------------------------------------------------ *)
(** ** The findings and their publication *)
(* ------------------------------------------------------------------ *)

Lemma filter_taskCreated (prid : string) (cid : Z) (ts : list string) :
  filter isCreateTask (map (taskCreated prid cid) ts)
  = map (taskCreated prid cid) ts.
Proof. induction ts as [|t ts IH]; [reflexivity|]. simpl. now rewrite IH. Qed.

Lemma extendsBy_filter (server : Type) (p q : event -> bool)
      (w1 w2 : world server) :
  (forall e, p e = true -> q e = false) ->
  extendsBy p w1 w2 -> filter q (log w2) = filter q (log w1).
Proof.
  intros Hpq [evs [H P]]. rewrite H, filter_app.
  replace (filter q evs) with (@nil event); [now rewrite app_nil_r|].
  clear H. induction evs as [|e evs IH]; [reflexivity|].
  simpl in P. apply andb_true_iff in P as [Pe P].
  simpl. rewrite (Hpq e Pe). now apply IH.
Qed.

(** C2.  The findings of a change set, before the reversal, are the
    outputs of the four analysers appended in the order volume, database
    synergy, drop scripts, dot-equals, so there are as many as the four
    outputs together.  For 150 added [.js] lines, a path with [/mssql/] and
    none with [/oracle/], an added [.sql] line with a create-table and none
    with a drop-table, and an added [.java] line [x.equals(y)], they are
    the five findings volume, MSSQL asymmetry, notify, missing drop,
    dot-equals.  A run of [analyse] that completes has posted one task per
    finding of the change set it fetched, in the reverse of that order, and
    no other task; against a server that answers every request the run
    does complete. *)
Theorem analyse_publishes_reversed_concatenation :
  (forall changes,
      collectTasks changes
      = analyseNumberOfChanges changes ++ analyseDBScriptSynergy changes
        ++ analyseDropScriptsNeeded changes ++ analyseUseOfDotEquals changes
      /\ List.length (collectTasks changes)
         = (List.length (analyseNumberOfChanges changes)
            + List.length (analyseDBScriptSynergy changes)
            + List.length (analyseDropScriptsNeeded changes)
            + List.length (analyseUseOfDotEquals changes))%nat)
  /\ (forall changes,
        List.length (addedLines "js" changes) = 150%nat ->
        touches changes "/mssql/" ->
        ~ touches changes "/oracle/" ->
        (exists l, In l (addedLines "sql" changes)
                   /\ containsIgnoreCase l "create table") ->
        (forall l, In l (addedLines "sql" changes) ->
                   ~ containsIgnoreCase l "drop table") ->
        In "x.equals(y)" (addedLines "java" changes) ->
        collectTasks changes
        = [significantChangesTask; mssqlNotOracleTask; notifyTeamTask;
           dropScriptsTask; dotEqualsTask])
  /\ (forall (server : Type)
             (respond : forall r : request, server -> option (response r) * server)
             (prid : string) (w w' : world server),
        analyse respond prid w = (Some tt, w') ->
        exists item c w1 changes w2,
          addParentComment respond w = (Some (Some item), w1)
          /\ activity_comment item = Some c
          /\ fetchChanges respond w1 = (Some changes, w2)
          /\ log w' = log w2
                      ++ map (taskCreated prid (id c))
                             (rev (collectTasks changes))
                      ++ [Reload]
          /\ filter isCreateTask (log w')
             = filter isCreateTask (log w)
               ++ map (taskCreated prid (id c)) (rev (collectTasks changes)))
  /\ (forall prid (w : world InMemory.review),
        fst (analyse InMemory.respond prid w) = Some tt).
Proof.
  split; [|split; [|split]].
  - intros changes. split; [apply collectTasks_eq|].
    rewrite collectTasks_eq, !length_app. lia.
  - intros changes Hjs Hm Ho Hc Hd Hj. rewrite collectTasks_eq.
    rewrite analyseNumberOfChanges_eq, Hjs.
    rewrite (analyseDBScriptSynergy_mssql_only Hm Ho).
    rewrite (analyseDropScriptsNeeded_create_only _ Hc Hd).
    assert (J : analyseUseOfDotEquals changes = [dotEqualsTask]).
    { unfold analyseUseOfDotEquals.
      assert (F : exists l, In l (addedLines "java" changes)
                            /\ contains l ".equals"
                            /\ ~ contains l "StringUtils").
      { exists "x.equals(y)". split; [exact Hj|]. split.
        - now exists "x", "(y)".
        - now apply includes_false_iff. }
      apply dotEquals_flag_iff in F. now rewrite F. }
    rewrite J. reflexivity.
  - intros server respond prid w w' H.
    destruct (analyse_inv _ _ _ H) as [item [c [w1 [changes [w2 A]]]]].
    destruct A as [Ha [Hc [Hf Hl]]].
    exists item, c, w1, changes, w2. repeat split; auto.
    rewrite Hl, !filter_app, filter_taskCreated. simpl. rewrite app_nil_r.
    f_equal.
    assert (E1 : filter isCreateTask (log w1) = filter isCreateTask (log w)).
    { destruct (addParentComment_log respond w) as [evs [He P]].
      rewrite Ha in He. cbn [snd] in He. rewrite He, filter_app. simpl.
      assert (X : extendsBy readOnly (World (srv w) []) (World (srv w) evs))
        by (exists evs; now split).
      apply extendsBy_filter with (q := isCreateTask) in X;
        [|exact readOnly_not_task].
      simpl in X. rewrite X. apply app_nil_r. }
    rewrite <- E1.
    pose proof (fetchChanges_readOnly respond w1) as X. rewrite Hf in X.
    exact (extendsBy_filter isCreateTask readOnly_not_task X).
  - intros prid w. apply inMemory_analyse_returns.
Qed.

Lemma analyse_publishes_reversed_concatenation_witness :
  let w := InMemory.start (Samples.reviewOf Samples.endToEnd) in
  collectTasks Samples.endToEnd
  = [significantChangesTask; mssqlNotOracleTask; notifyTeamTask;
     dropScriptsTask; dotEqualsTask]
  /\ exists item c w1 changes w2,
       addParentComment InMemory.respond w = (Some (Some item), w1)
       /\ activity_comment item = Some c
       /\ fetchChanges InMemory.respond w1 = (Some changes, w2)
       /\ log (snd (analyse InMemory.respond "7" w))
          = log w2
            ++ map (taskCreated "7" (id c)) (rev (collectTasks changes))
            ++ [Reload]
       /\ filter isCreateTask (log (snd (analyse InMemory.respond "7" w)))
          = filter isCreateTask (log w)
            ++ map (taskCreated "7" (id c)) (rev (collectTasks changes)).
Proof.
  intros w.
  destruct analyse_publishes_reversed_concatenation as [_ [E [P _]]].
  split.
  - apply E.
    + vm_compute. reflexivity.
    + apply checkPaths_touches. vm_compute. reflexivity.
    + apply checkPaths_not_touches. vm_compute. reflexivity.
    + exists "CREATE TABLE foo (id INT);". split; [now left|].
      now exists "", "CREATE TABLE", " foo (id INT);".
    + intros l [<-|[]] H.
      apply (includes_toLowerCase_iff "CREATE TABLE foo (id INT);"
               (sub := "drop table") eq_refl) in H.
      discriminate H.
    + now left.
  - apply (P InMemory.review InMemory.respond "7" w
             (snd (analyse InMemory.respond "7" w))).
    vm_compute. reflexivity.
Defined.

(** The sample review end to end: the change set is fetched as it is, and
    the five tasks go out last finding first under comment 1. *)
Example endToEnd_run :
  let r := analyse InMemory.respond "7"
                   (InMemory.start (Samples.reviewOf Samples.endToEnd)) in
  fst (fetchChanges InMemory.respond
                    (InMemory.start (Samples.reviewOf Samples.endToEnd)))
  = Some Samples.endToEnd
  /\ fst r = Some tt
  /\ filter isCreateTask (log (snd r))
     = map (taskCreated "7" 1)
           [dotEqualsTask; dropScriptsTask; notifyTeamTask;
            mssqlNotOracleTask; significantChangesTask].
Proof. vm_compute. repeat split. Qed.

(** C10.  Each of [analyseNumberOfChanges], [analyseDropScriptsNeeded] and
    [analyseUseOfDotEquals] emits at most one finding and
    [analyseDBScriptSynergy] at most two, its two asymmetry findings never
    together; so there are at most five findings, and a run of [analyse],
    completed or not, posts at most five tasks. *)
Theorem findings_bounded :
  forall changes,
    (List.length (analyseNumberOfChanges changes) <= 1)%nat
    /\ (List.length (analyseDBScriptSynergy changes) <= 2)%nat
    /\ ~ (In mssqlNotOracleTask (analyseDBScriptSynergy changes)
          /\ In oracleNotMssqlTask (analyseDBScriptSynergy changes))
    /\ (List.length (analyseDropScriptsNeeded changes) <= 1)%nat
    /\ (List.length (analyseUseOfDotEquals changes) <= 1)%nat
    /\ (List.length (collectTasks changes) <= 5)%nat
    /\ forall (server : Type)
              (respond : forall r : request, server -> option (response r) * server)
              (prid : string) (w : world server),
         (count isCreateTask (log (snd (analyse respond prid w)))
          <= count isCreateTask (log w) + 5)%nat.
Proof.
  intros changes.
  split; [apply analyseNumberOfChanges_le1|].
  split; [apply analyseDBScriptSynergy_le2|].
  split.
  { unfold analyseDBScriptSynergy.
    destruct (checkPaths changes "/mssql/" _ false),
      (checkPaths changes "/oracle/" _ false); simpl;
      intros [A B]; intuition discriminate. }
  split; [apply analyseDropScriptsNeeded_le1|].
  split; [apply analyseUseOfDotEquals_le1|].
  split; [apply collectTasks_le5|].
  intros server respond prid w. apply analyse_task_bound.
Qed.

(* ------------------------------------------------------------------ *)
(** ** The extension of a changed file *)
(* ------------------------------------------------------------------ *)

(** C8, as the code has it.  The extension of every changed file is the
    [path.extension] string of its entry in the answer to [GET changes],
    unchanged: nothing lower-cases it.  [checkLines] compares it with the
    extension it looks for as it is, so a file whose extension differs from
    it, if only in letter case, is not scanned. *)
Theorem extension_is_verbatim
        (server : Type)
        (respond : forall r : request, server -> option (response r) * server)
        (w w' : world server) (files : list changedFile) :
  fetchChanges respond w = (Some files, w') ->
  (exists values s',
      respond GET_changes (srv w) = (Some (Page values), s')
      /\ map extension files
         = map (fun c => path_extension (change_path c)) values)
  /\ (forall (S : Type) f rest ext (callback : string -> S -> S) s,
        extension f <> ext ->
        checkLines (f :: rest) ext callback s
        = checkLines rest ext callback s).
Proof.
  intros H. split.
  - destruct (fetchChanges_inv _ _ H) as [values [s' [Hr [He _]]]].
    now exists values, s'.
  - intros S f rest ext callback s. apply checkLines_skips.
Qed.

Lemma extension_is_verbatim_witness :
  let w := InMemory.start Samples.upperCaseReview in
  exists files,
    fst (fetchChanges InMemory.respond w) = Some files
    /\ map extension files = ["JAVA"]
    /\ addedLines "java" files = []
    /\ addedLines "JAVA" files = ["a.equals(b)"].
Proof.
  intros w.
  exists [ChangedFile "core/src/Main.JAVA" "Main.JAVA" "JAVA"
                      [Samples.added ["a.equals(b)"]]].
  split; [reflexivity|]. split; [|split; reflexivity].
  destruct (@extension_is_verbatim
              InMemory.review InMemory.respond w
              (snd (fetchChanges InMemory.respond w))
              [ChangedFile "core/src/Main.JAVA" "Main.JAVA" "JAVA"
                           [Samples.added ["a.equals(b)"]]]
              eq_refl) as [[values [s' [Hr He]]] _].
  rewrite He. apply (f_equal fst) in Hr. cbn in Hr. injection Hr as <-.
  reflexivity.
Defined.

(** C8, as claimed, fails: a file that the server reports with the
    extension [JAVA] keeps that extension, which is not lower case, and its
    added line [a.equals(b)] is not found by [analyseUseOfDotEquals]. *)
Lemma upperCase_extension_counterexample :
  exists files f,
    fst (fetchChanges InMemory.respond
                      (InMemory.start Samples.upperCaseReview)) = Some files
    /\ In f files
    /\ extension f <> toLowerCase (extension f)
    /\ toLowerCase (extension f) = "java"
    /\ In (Samples.added ["a.equals(b)"]) (segments f)
    /\ analyseUseOfDotEquals files = [].
Proof.
  exists [ChangedFile "core/src/Main.JAVA" "Main.JAVA" "JAVA"
                      [Samples.added ["a.equals(b)"]]].
  exists (ChangedFile "core/src/Main.JAVA" "Main.JAVA" "JAVA"
                      [Samples.added ["a.equals(b)"]]).
  split; [reflexivity|]. split; [now left|]. split; [discriminate|].
  split; [reflexivity|]. split; [now left | reflexivity].
Qed.

(* ------------------------------------------------------------------ *)
(** ** More on the analyser utilities *)
(* ------------------------------------------------------------------ *)

Lemma addedLines_app (ext : string) (a b : list changedFile) :
  addedLines ext (a ++ b) = addedLines ext a ++ addedLines ext b.
Proof.
  unfold addedLines, addedSegments.
  now rewrite filter_app, !flat_map_app.
Qed.

Lemma addedLines_cons (ext : string) (f : changedFile)
      (c : list changedFile) :
  addedLines ext (f :: c) = addedLines ext [f] ++ addedLines ext c.
Proof. exact (addedLines_app ext [f] c). Qed.

(** X1.  [checkLines] runs the callback on the text of every ADDED line of
    the files with the extension, once each, in the order of the files, of
    their segments and of the lines; scanning two change sets one after the
    other is scanning them appended. *)
Theorem checkLines_visits_added_lines_in_order
        (S : Type) (changes more : list changedFile) (ext : string)
        (callback : string -> S -> S) (s : S) :
  checkLines changes ext callback s
  = fold_left (fun s l => callback l s) (addedLines ext changes) s
  /\ checkLines changes ext (fun l seen => seen ++ [l]) []
     = addedLines ext changes
  /\ checkLines (changes ++ more) ext callback s
     = checkLines more ext callback (checkLines changes ext callback s).
Proof.
  split; [apply checkLines_addedLines|]. split.
  - rewrite checkLines_addedLines.
    assert (G : forall ls acc,
               fold_left (fun (s0 : list string) l => s0 ++ [l]) ls acc
               = acc ++ ls).
    { induction ls as [|l ls IH]; intros acc; simpl.
      - now rewrite app_nil_r.
      - now rewrite IH, <- app_assoc. }
    apply (G (addedLines ext changes) []).
  - rewrite !checkLines_addedLines, addedLines_app. apply fold_left_app.
Qed.

(** X2.  [checkPaths] runs the callback once for every changed file whose
    path has the substring, and for no other file. *)
Theorem checkPaths_calls_once_per_matching_file
        (S : Type) (changes : list changedFile) (sub : string)
        (callback : S -> S) (s : S) :
  checkPaths changes sub callback s
  = Nat.iter
      (List.length (filter (fun f => includes (path f) sub) changes))
      callback s.
Proof.
  unfold checkPaths. revert s.
  induction changes as [|f changes IH]; intros s; [reflexivity|].
  cbn [fold_left filter]. rewrite IH.
  destruct (includes (path f) sub); [|reflexivity].
  cbn [List.length]. now rewrite Nat.iter_succ_r.
Qed.

(* ------------------------------------------------------------------ *)
(** ** More on the analysers *)
(* ------------------------------------------------------------------ *)

Lemma addedLines_perm (ext : string) (c1 c2 : list changedFile) :
  Permutation c1 c2 ->
  Permutation (addedLines ext c1) (addedLines ext c2).
Proof.
  induction 1 as [|f c c' _ IH|f g c|c c' c'' _ IH1 _ IH2].
  - apply Permutation_refl.
  - rewrite (addedLines_cons ext f c), (addedLines_cons ext f c').
    now apply Permutation_app_head.
  - rewrite (addedLines_cons ext g (f :: c)), (addedLines_cons ext f c),
      (addedLines_cons ext f (g :: c)), (addedLines_cons ext g c).
    rewrite !app_assoc. apply Permutation_app_tail, Permutation_app_comm.
  - now apply Permutation_trans with (addedLines ext c').
Qed.

Lemma existsb_perm (A : Type) (p : A -> bool) (l l' : list A) :
  Permutation l l' -> existsb p l = existsb p l'.
Proof.
  intros H. apply eq_true_iff_eq. rewrite !existsb_exists.
  split; intros [x [Hin Hp]]; exists x; split; auto.
  - now apply (Permutation_in x H).
  - now apply (Permutation_in x (Permutation_sym H)).
Qed.

(** X3.  The order of the files in the change set does not matter: the
    four analysers, and so the list of findings, give the same on any
    reordering of it. *)
Theorem analysers_ignore_file_order (c1 c2 : list changedFile) :
  Permutation c1 c2 ->
  analyseNumberOfChanges c1 = analyseNumberOfChanges c2
  /\ analyseDBScriptSynergy c1 = analyseDBScriptSynergy c2
  /\ analyseDropScriptsNeeded c1 = analyseDropScriptsNeeded c2
  /\ analyseUseOfDotEquals c1 = analyseUseOfDotEquals c2
  /\ collectTasks c1 = collectTasks c2.
Proof.
  intros H.
  assert (V : analyseNumberOfChanges c1 = analyseNumberOfChanges c2).
  { rewrite !analyseNumberOfChanges_eq.
    now rewrite (Permutation_length (addedLines_perm "js" H)),
      (Permutation_length (addedLines_perm "java" H)). }
  assert (Y : analyseDBScriptSynergy c1 = analyseDBScriptSynergy c2).
  { unfold analyseDBScriptSynergy. rewrite !checkPaths_flag.
    now rewrite (existsb_perm (fun f => includes (path f) "/mssql/") H),
      (existsb_perm (fun f => includes (path f) "/oracle/") H). }
  assert (D : analyseDropScriptsNeeded c1 = analyseDropScriptsNeeded c2).
  { unfold analyseDropScriptsNeeded.
    rewrite !(checkLines_flag _ "sql"
                (fun line => includes (toLowerCase line) "create table")).
    rewrite !(checkLines_flag _ "sql"
                (fun line => includes (toLowerCase line) "drop table")).
    now rewrite (existsb_perm _ (addedLines_perm "sql" H)),
      (existsb_perm (fun line => includes (toLowerCase line) "drop table")
                    (addedLines_perm "sql" H)). }
  assert (E : analyseUseOfDotEquals c1 = analyseUseOfDotEquals c2).
  { unfold analyseUseOfDotEquals.
    rewrite !(checkLines_flag _ "java"
                (fun line => includes line ".equals"
                             && negb (includes line "StringUtils"))).
    now rewrite (existsb_perm _ (addedLines_perm "java" H)). }
  repeat split; auto. rewrite !collectTasks_eq. congruence.
Qed.

Lemma analysers_ignore_file_order_witness :
  let c := Samples.endToEnd in
  Permutation c (rev c)
  /\ c <> rev c
  /\ collectTasks (rev c) = collectTasks c.
Proof.
  intros c. split; [apply Permutation_rev|]. split; [discriminate|].
  symmetry.
  exact (proj2 (proj2 (proj2 (proj2
           (analysers_ignore_file_order (Permutation_rev c)))))).
Defined.

(** X4.  Adding files to a change set never takes away the volume finding,
    the dot-equals finding or the notify finding. *)
Theorem findings_persist_when_files_are_added (c d : list changedFile) :
  (analyseNumberOfChanges c = [significantChangesTask] ->
   analyseNumberOfChanges (c ++ d) = [significantChangesTask])
  /\ (analyseUseOfDotEquals c = [dotEqualsTask] ->
      analyseUseOfDotEquals (c ++ d) = [dotEqualsTask])
  /\ (In notifyTeamTask (analyseDBScriptSynergy c) ->
      In notifyTeamTask (analyseDBScriptSynergy (c ++ d))).
Proof.
  split; [|split].
  - rewrite !analyseNumberOfChanges_eq, !addedLines_app, !length_app.
    destruct (Nat.ltb_spec 100 (List.length (addedLines "js" c)
                                + List.length (addedLines "java" c)));
      [|discriminate].
    intros _.
    destruct (Nat.ltb_spec 100
                (List.length (addedLines "js" c)
                 + List.length (addedLines "js" d)
                 + (List.length (addedLines "java" c)
                    + List.length (addedLines "java" d))));
      [reflexivity | lia].
  - unfold analyseUseOfDotEquals.
    rewrite !(checkLines_flag _ "java"
                (fun line => includes line ".equals"
                             && negb (includes line "StringUtils"))).
    rewrite addedLines_app, existsb_app.
    destruct (existsb _ (addedLines "java" c)); [reflexivity|discriminate].
  - unfold analyseDBScriptSynergy. rewrite !checkPaths_flag, !existsb_app.
    destruct (existsb (fun f => includes (path f) "/mssql/") c),
      (existsb (fun f => includes (path f) "/oracle/") c); simpl;
      try (intros H; intuition discriminate);
      intros _;
      destruct (existsb (fun f => includes (path f) "/mssql/") d),
        (existsb (fun f => includes (path f) "/oracle/") d); simpl; auto.
Qed.

Lemma findings_persist_when_files_are_added_witness :
  let c := [Samples.jsFile 101; Samples.javaFile ["a.equals(b)"];
            Samples.otherFile "db/oracle/notes.txt"] in
  let d := [Samples.sqlFile "db/mssql/t.sql" ["drop table t"];
            Samples.javaFile ["StringUtils.equals(a, b)"]] in
  analyseNumberOfChanges (c ++ d) = [significantChangesTask]
  /\ analyseUseOfDotEquals (c ++ d) = [dotEqualsTask]
  /\ In notifyTeamTask (analyseDBScriptSynergy (c ++ d)).
Proof.
  intros c d.
  destruct (findings_persist_when_files_are_added c d) as [V [E N]].
  split; [|split].
  - apply V. reflexivity.
  - apply E. reflexivity.
  - apply N. right. now left.
Defined.

Lemma addedLines_no_file (ext : string) (changes : list changedFile) :
  (forall f, In f changes -> extension f <> ext) ->
  addedLines ext changes = [].
Proof.
  intros H. unfold addedLines, addedSegments.
  replace (filter (hasExtension ext) changes) with (@nil changedFile);
    [reflexivity|].
  induction changes as [|f changes IH]; [reflexivity|].
  cbn [filter]. unfold hasExtension at 1.
  rewrite (proj2 (String.eqb_neq _ _) (H f (or_introl eq_refl))).
  apply IH. intros g Hg. apply H. now right.
Qed.

(** X5.  A change set without any file of extension [js], [java] or [sql]
    (compared as they are, so [JS] or [Java] do not count) gets none of
    the line-based findings, whatever its lines say: its findings are
    those of [analyseDBScriptSynergy] alone. *)
Theorem no_scanned_extension_no_line_findings (changes : list changedFile) :
  (forall f, In f changes ->
             extension f <> "js" /\ extension f <> "java"
             /\ extension f <> "sql") ->
  analyseNumberOfChanges changes = []
  /\ analyseDropScriptsNeeded changes = []
  /\ analyseUseOfDotEquals changes = []
  /\ collectTasks changes = analyseDBScriptSynergy changes.
Proof.
  intros H.
  assert (Hjs : addedLines "js" changes = [])
    by (apply addedLines_no_file; intros f Hf; apply (H f Hf)).
  assert (Hjava : addedLines "java" changes = [])
    by (apply addedLines_no_file; intros f Hf; apply (H f Hf)).
  assert (Hsql : addedLines "sql" changes = [])
    by (apply addedLines_no_file; intros f Hf; apply (H f Hf)).
  assert (V : analyseNumberOfChanges changes = [])
    by (rewrite analyseNumberOfChanges_eq, Hjs, Hjava; reflexivity).
  assert (D : analyseDropScriptsNeeded changes = []).
  { unfold analyseDropScriptsNeeded.
    rewrite !checkLines_addedLines, Hsql. reflexivity. }
  assert (E : analyseUseOfDotEquals changes = []).
  { unfold analyseUseOfDotEquals.
    rewrite checkLines_addedLines, Hjava. reflexivity. }
  repeat split; auto.
  rewrite collectTasks_eq, V, D, E. simpl. apply app_nil_r.
Qed.

Lemma no_scanned_extension_no_line_findings_witness :
  let c := [ChangedFile "web/App.JS" "App.JS" "JS"
              [Samples.added (repeat "step();" 200)];
            ChangedFile "db/mssql/T.SQL" "T.SQL" "SQL"
              [Samples.added ["create table t"]];
            ChangedFile "src/A.Java" "A.Java" "Java"
              [Samples.added ["a.equals(b)"]]] in
  collectTasks c = [mssqlNotOracleTask; notifyTeamTask].
Proof.
  intros c.
  destruct (no_scanned_extension_no_line_findings c) as [_ [_ [_ E]]].
  - intros f [<-|[<-|[<-|[]]]]; repeat split; discriminate.
  - rewrite E. reflexivity.
Defined.

(** X6.  [analyseDBScriptSynergy] reads nothing of a change set but the
    paths of its files: two change sets with the same paths get the same
    findings from it, whatever their extensions and lines. *)
Theorem synergy_reads_paths_only (c1 c2 : list changedFile) :
  map path c1 = map path c2 ->
  analyseDBScriptSynergy c1 = analyseDBScriptSynergy c2.
Proof.
  intros H. unfold analyseDBScriptSynergy. rewrite !checkPaths_flag.
  assert (P : forall sub c,
             existsb (fun f => includes (path f) sub) c
             = existsb (fun p => includes p sub) (map path c)).
  { intros sub c. induction c as [|f c IH]; [reflexivity|].
    simpl. now rewrite IH. }
  now rewrite !P, H.
Qed.

Lemma synergy_reads_paths_only_witness :
  let c1 := [Samples.sqlFile "db/mssql/t.sql" ["create table t"]] in
  let c2 := [ChangedFile "db/mssql/t.sql" "other" "bin" []] in
  c1 <> c2
  /\ analyseDBScriptSynergy c1 = analyseDBScriptSynergy c2.
Proof.
  intros c1 c2. split; [discriminate|].
  apply (synergy_reads_paths_only c1 c2). reflexivity.
Defined.

(** X7.  The findings of a change set are findings from the fixed list of
    six, each at most once, in the order of that list. *)
Theorem findings_in_fixed_order_without_repeats
        (changes : list changedFile) :
  collectTasks changes
  = filter (fun t => existsb (String.eqb t) (collectTasks changes)) allTasks
  /\ NoDup (collectTasks changes).
Proof.
  rewrite collectTasks_eq.
  unfold analyseNumberOfChanges, analyseDBScriptSynergy,
    analyseDropScriptsNeeded, analyseUseOfDotEquals.
  generalize (checkLines changes "js" (fun _ n => (n + 1)%nat) 0%nat
              + checkLines changes "java" (fun _ n => (n + 1)%nat) 0%nat)%nat.
  intros n.
  generalize (checkPaths changes "/mssql/" (fun _ => true) false).
  generalize (checkPaths changes "/oracle/" (fun _ => true) false).
  generalize
    (checkLines changes "sql"
       (fun line b =>
          if includes (toLowerCase line) "create table" then true else b)
       false).
  generalize
    (checkLines changes "sql"
       (fun line b =>
          if includes (toLowerCase line) "drop table" then true else b)
       false).
  generalize
    (checkLines changes "java"
       (fun line b =>
          if includes line ".equals" && negb (includes line "StringUtils")
          then true else b)
       false).
  intros e d c o m.
  destruct (100 <? n)%nat, e, d, c, o, m; (split; [reflexivity|]);
    cbn; repeat constructor; cbn; intuition discriminate.
Qed.

(* ------------------------------------------------------------------ *)
(** ** More on extractSegments *)
(* ------------------------------------------------------------------ *)

(** X8.  [extractSegments] works entry by entry: the segments of two lists
    of diff entries appended are the segments of the one followed by those
    of the other, and how the hunks are spread over the entries does not
    matter. *)
Theorem extractSegments_app (a b : list diff) (h1 h2 : list hunk) :
  extractSegments (Some (a ++ b))
  = extractSegments (Some a) ++ extractSegments (Some b)
  /\ extractSegments (Some [Diff (Some (h1 ++ h2))])
     = extractSegments (Some [Diff (Some h1); Diff (Some h2)])
  /\ List.length (taggedLines (extractSegments (Some (a ++ b))))
     = (List.length (taggedLines (extractSegments (Some a)))
        + List.length (taggedLines (extractSegments (Some b))))%nat.
Proof.
  assert (E : forall ds, extractSegments (Some ds)
                         = flat_map hunk_segments (flat_map hunksOf ds)).
  { intros ds. unfold extractSegments. now rewrite fold_concat_diffs. }
  assert (A : extractSegments (Some (a ++ b))
              = extractSegments (Some a) ++ extractSegments (Some b))
    by now rewrite !E, !flat_map_app.
  split; [exact A|]. split.
  - rewrite !E. cbn [flat_map hunksOf hunks]. now rewrite !app_nil_r.
  - now rewrite A, taggedLines_app, length_app.
Qed.

(* ------------------------------------------------------------------ *)
(** ** More on fetching the change set *)
(* ------------------------------------------------------------------ *)

Section FetchTrace.
Variable server : Type.
Variable respond : forall r : request, server -> option (response r) * server.

Lemma fetchChangePaths_run (w : world server) :
  fetchChangePaths respond w
  = (option_map
       (fun body =>
          map (fun change =>
                 {| path := pathOf change;
                    name := path_name (change_path change);
                    extension := path_extension (change_path change);
                    segments := [] |})
              (values body))
       (fst (respond GET_changes (srv w))),
     World (snd (respond GET_changes (srv w)))
           (log w ++ [Fetch GET_changes])).
Proof.
  unfold fetchChangePaths, bind, fetch.
  now destruct (respond GET_changes (srv w)) as [[body|] s1].
Qed.

Lemma fetchDetail_step_log (f : changedFile) (w : world server) :
  log (snd (bind (fetchChangeDetail respond (path f))
                 (fun x => ret {| path := path f; name := name f;
                                  extension := extension f;
                                  segments := x |}) w))
  = log w ++ [Fetch (GET_diff (path f))].
Proof.
  unfold fetchChangeDetail, bind.
  destruct (fetch respond (GET_diff (path f)) w) as [[body|] w1] eqn:E;
    now destruct (fetch_inv _ _ _ E).
Qed.

(** The loop of lines 70-74 asks for the diffs in the order of the files
    and stops at the first request that fails. *)
Lemma fetchChanges_loop_log (l : list changedFile) (w : world server) :
  exists k,
    (k <= List.length l)%nat
    /\ log (snd (forEachAwait
                   (fun file =>
                      bind (fetchChangeDetail respond (path file))
                           (fun x => ret {| path := path file;
                                            name := name file;
                                            extension := extension file;
                                            segments := x |}))
                   l w))
       = log w ++ map (fun f => Fetch (GET_diff (path f))) (firstn k l)
    /\ (forall r,
          fst (forEachAwait
                 (fun file =>
                    bind (fetchChangeDetail respond (path file))
                         (fun x => ret {| path := path file;
                                          name := name file;
                                          extension := extension file;
                                          segments := x |}))
                 l w) = Some r ->
          k = List.length l /\ List.length r = List.length l
          /\ map path r = map path l /\ map name r = map name l).
Proof.
  revert w; induction l as [|f l IH]; intros w.
  - exists 0%nat. split; [simpl; lia|]. split.
    + simpl. now rewrite app_nil_r.
    + intros r H. injection H as <-. now repeat split.
  - rewrite forEachAwait_cons. pose proof (fetchDetail_step_log f w) as Hl.
    destruct (bind (fetchChangeDetail respond (path f)) _ w)
      as [[b|] w1] eqn:Eb; cbn [snd] in Hl.
    + assert (Hb : path b = path f /\ name b = name f).
      { unfold bind in Eb.
        destruct (fetchChangeDetail respond (path f) w) as [[x|] w0];
          [|discriminate].
        injection Eb as <- _. now split. }
      destruct (IH w1) as [k [Hk [Hlog Hok]]]. exists (S k).
      destruct (forEachAwait _ l w1) as [[bs|] w2]; cbn [fst snd] in *;
        (split; [simpl; lia|]); (split;
          [rewrite Hlog, Hl, <- app_assoc; reflexivity|]).
      * intros r H. injection H as <-.
        destruct (Hok bs eq_refl) as [K1 [K2 [K3 K4]]].
        destruct Hb as [B1 B2]. simpl. now rewrite K1, K2, K3, K4, B1, B2.
      * discriminate.
    + exists 1%nat. cbn [fst snd]. split; [simpl; lia|]. split.
      * rewrite Hl. reflexivity.
      * discriminate.
Qed.

End FetchTrace.

(* ------------------------------------------------------------------ *)
(** ** Loops that send one request per element *)
(* ------------------------------------------------------------------ *)

Section RequestLoop.
Variable server : Type.
Variable respond : forall r : request, server -> option (response r) * server.
Variables A B : Type.
Variable req : A -> request.
Variable post : forall a : A, response (req a) -> B.
Variable f : A -> M server B.

(** [f] sends the one request [req a] and, when it is answered, returns
    [post a] of the answer. *)
Hypothesis f_step :
  forall a w,
    f a w
    = (option_map (post a) (fst (respond (req a) (srv w))),
       World (snd (respond (req a) (srv w))) (log w ++ [Fetch (req a)])).

Lemma stateAfter_cons (r : request) (rs : list request) (s : server) :
  stateAfter respond (r :: rs) s
  = stateAfter respond rs (snd (respond r s)).
Proof. reflexivity. Qed.

Lemma stateAfter_snoc (r : request) (rs : list request) (s : server) :
  stateAfter respond (rs ++ [r]) s
  = snd (respond r (stateAfter respond rs s)).
Proof. unfold stateAfter. now rewrite fold_left_app. Qed.

(** When every request is answered, the loop sends them all, in order,
    and returns what [post] makes of the answers. *)
Lemma requestLoop_success (l : list A) :
  forall w : world server,
    (forall pre a post',
        l = pre ++ a :: post' ->
        answerAfter respond (map req pre) (srv w) (req a) <> None) ->
    exists bs,
      forEachAwait f l w
      = (Some bs,
         World (stateAfter respond (map req l) (srv w))
               (log w ++ map (fun a => Fetch (req a)) l))
      /\ List.length bs = List.length l
      /\ (forall pre a post',
            l = pre ++ a :: post' ->
            exists r,
              answerAfter respond (map req pre) (srv w) (req a) = Some r
              /\ nth_error bs (List.length pre) = Some (post a r)).
Proof.
  induction l as [|a0 l IH]; intros w H.
  - exists []. destruct w as [s lg]. cbn. rewrite app_nil_r.
    repeat split; auto. intros [|x pre] a post' E; discriminate E.
  - pose proof (H [] a0 l eq_refl) as H0.
    unfold answerAfter in H0. cbn [map stateAfter fold_left] in H0.
    rewrite forEachAwait_cons, f_step.
    destruct (respond (req a0) (srv w)) as [[r0|] s'] eqn:E0;
      [|now destruct H0].
    cbn [fst snd option_map].
    destruct (IH (World s' (log w ++ [Fetch (req a0)]))) as [bs [R [L N]]].
    { intros pre a post' El. cbn [srv].
      pose proof (H (a0 :: pre) a post') as Hp. cbn [map] in Hp.
      unfold answerAfter in *. rewrite stateAfter_cons, E0 in Hp.
      apply Hp. now rewrite El. }
    rewrite R. exists (post a0 r0 :: bs). cbn [srv log] in *.
    split; [|split].
    + cbn [map]. rewrite stateAfter_cons, E0, <- app_assoc. reflexivity.
    + simpl. now rewrite L.
    + intros [|x pre] a post' El.
      * injection El as <- _. exists r0. unfold answerAfter.
        cbn [map stateAfter fold_left]. rewrite E0. now split.
      * injection El as <- El. destruct (N pre a post' El) as [r [Ha Hn]].
        exists r. unfold answerAfter in *. cbn [map].
        rewrite stateAfter_cons, E0. now split.
Qed.

(** The loop stops at the first request that is not answered: it has sent
    the requests up to and including that one, none after it, and
    rejects. *)
Lemma requestLoop_failure (pre : list A) :
  forall (l : list A) (a : A) (post' : list A) (w : world server),
    l = pre ++ a :: post' ->
    (forall pre1 a1 post1,
        pre = pre1 ++ a1 :: post1 ->
        answerAfter respond (map req pre1) (srv w) (req a1) <> None) ->
    answerAfter respond (map req pre) (srv w) (req a) = None ->
    forEachAwait f l w
    = (None,
       World (stateAfter respond (map req (pre ++ [a])) (srv w))
             (log w ++ map (fun a => Fetch (req a)) (pre ++ [a]))).
Proof.
  induction pre as [|a0 pre IH]; intros l a post' w -> H Ha.
  - cbn [app]. rewrite forEachAwait_cons, f_step.
    unfold answerAfter in Ha. cbn [map stateAfter fold_left] in Ha.
    rewrite Ha. reflexivity.
  - pose proof (H [] a0 pre eq_refl) as H0.
    unfold answerAfter in H0. cbn [map stateAfter fold_left] in H0.
    cbn [app]. rewrite forEachAwait_cons, f_step.
    destruct (respond (req a0) (srv w)) as [[r0|] s'] eqn:E0;
      [|now destruct H0].
    cbn [fst snd option_map].
    rewrite (IH (pre ++ a :: post') a post'
                (World s' (log w ++ [Fetch (req a0)])) eq_refl).
    + cbn [srv log map]. rewrite stateAfter_cons, E0, <- app_assoc.
      reflexivity.
    + intros pre1 a1 post1 El. cbn [srv].
      pose proof (H (a0 :: pre1) a1 post1) as Hp. cbn [map] in Hp.
      unfold answerAfter in *. rewrite stateAfter_cons, E0 in Hp.
      apply Hp. now rewrite El.
    + cbn [srv]. unfold answerAfter in *. cbn [map] in Ha.
      now rewrite stateAfter_cons, E0 in Ha.
Qed.

End RequestLoop.

Section RequestLoopUses.
Variable server : Type.
Variable respond : forall r : request, server -> option (response r) * server.
Variable prid : string.

Lemma forEachAwait_map (A A' B : Type) (g : A -> A')
      (f : A' -> M server B) (l : list A) (w : world server) :
  forEachAwait f (map g l) w = forEachAwait (fun a => f (g a)) l w.
Proof.
  revert w; induction l as [|a l IH]; intros w; [reflexivity|].
  cbn [map]. rewrite !forEachAwait_cons.
  destruct (f (g a) w) as [[b|] w1]; [|reflexivity]. now rewrite IH.
Qed.

Lemma addTask_step (cid : Z) (t : string) (w : world server) :
  addTask respond prid t cid w
  = (option_map (fun _ => tt)
                (fst (respond (taskRequest prid cid t) (srv w))),
     World (snd (respond (taskRequest prid cid t) (srv w)))
           (log w ++ [Fetch (taskRequest prid cid t)])).
Proof.
  unfold addTask, bind, fetch, taskRequest.
  now destruct (respond (POST_tasks cid prid t "OPEN") (srv w)) as [[u|] s'].
Qed.

Lemma fetchDetail_step (e : changeJson) (w : world server) :
  bind (fetchChangeDetail respond (pathOf e))
       (fun x => ret {| path := pathOf e;
                        name := path_name (change_path e);
                        extension := path_extension (change_path e);
                        segments := x |}) w
  = (option_map (fileOf e) (fst (respond (diffRequest e) (srv w))),
     World (snd (respond (diffRequest e) (srv w)))
           (log w ++ [Fetch (diffRequest e)])).
Proof.
  unfold fetchChangeDetail, bind, fetch, diffRequest, fileOf.
  now destruct (respond (GET_diff (pathOf e)) (srv w)) as [[b|] s'].
Qed.

(** [fetchChanges] once the list of changes is there. *)
Lemma fetchChanges_after_listing (w : world server)
      (body : page changeJson) (s1 : server) :
  respond GET_changes (srv w) = (Some body, s1) ->
  fetchChanges respond w
  = forEachAwait
      (fun e =>
         bind (fetchChangeDetail respond (pathOf e))
              (fun x => ret {| path := pathOf e;
                               name := path_name (change_path e);
                               extension := path_extension (change_path e);
                               segments := x |}))
      (values body) (World s1 (log w ++ [Fetch GET_changes])).
Proof.
  intros H. unfold fetchChanges. unfold bind at 1.
  rewrite fetchChangePaths_run, H. cbn [fst snd option_map].
  exact (forEachAwait_map _ _ (values body) _).
Qed.

End RequestLoopUses.

(** X9.  [fetchChanges] asks for the list of changes once and then for the
    diff of each listed file, one request at a time in the order of the
    list, each under the path the list gave.  When every request is
    answered it returns one file per entry, in that order, with the path,
    name and extension of the entry and the segments of the answer to its
    request.  It stops at the first request that fails: it has sent the
    requests up to and including that one, sends none after it, and
    rejects. *)
Theorem fetchChanges_requests_in_listing_order
        (server : Type)
        (respond : forall r : request, server -> option (response r) * server)
        (w : world server) :
  (fst (respond GET_changes (srv w)) = None ->
   fst (fetchChanges respond w) = None
   /\ log (snd (fetchChanges respond w)) = log w ++ [Fetch GET_changes])
  /\ (forall body s1,
        respond GET_changes (srv w) = (Some body, s1) ->
        exists k,
          (k <= List.length (values body))%nat
          /\ log (snd (fetchChanges respond w))
             = log w ++ Fetch GET_changes
                 :: map (fun c => Fetch (GET_diff (pathOf c)))
                        (firstn k (values body))
          /\ (forall files,
                fst (fetchChanges respond w) = Some files ->
                k = List.length (values body)
                /\ map path files = map pathOf (values body)
                /\ map name files
                   = map (fun c => path_name (change_path c)) (values body)
                /\ map extension files
                   = map (fun c => path_extension (change_path c))
                         (values body)))
  /\ (forall body s1,
        respond GET_changes (srv w) = (Some body, s1) ->
        (forall pre e post,
            values body = pre ++ e :: post ->
            answerAfter respond (map diffRequest pre) s1 (diffRequest e)
            <> None) ->
        exists files,
          fetchChanges respond w
          = (Some files,
             World (stateAfter respond (map diffRequest (values body)) s1)
                   (log w ++ Fetch GET_changes
                      :: map (fun e => Fetch (diffRequest e)) (values body)))
          /\ List.length files = List.length (values body)
          /\ (forall pre e post,
                values body = pre ++ e :: post ->
                exists b,
                  answerAfter respond (map diffRequest pre) s1 (diffRequest e)
                  = Some b
                  /\ nth_error files (List.length pre) = Some (fileOf e b)))
  /\ (forall body s1 pre e post,
        respond GET_changes (srv w) = (Some body, s1) ->
        values body = pre ++ e :: post ->
        (forall pre1 e1 post1,
            pre = pre1 ++ e1 :: post1 ->
            answerAfter respond (map diffRequest pre1) s1 (diffRequest e1)
            <> None) ->
        answerAfter respond (map diffRequest pre) s1 (diffRequest e) = None ->
        fetchChanges respond w
        = (None,
           World (stateAfter respond (map diffRequest (pre ++ [e])) s1)
                 (log w ++ Fetch GET_changes
                    :: map (fun e => Fetch (diffRequest e)) (pre ++ [e])))).
Proof.
  split; [|split; [|split]].
  - intros H. unfold fetchChanges, bind. rewrite fetchChangePaths_run, H.
    now split.
  - intros body s1 H.
    assert (R : fetchChanges respond w
                = forEachAwait
                    (fun file =>
                       bind (fetchChangeDetail respond (path file))
                            (fun x => ret {| path := path file;
                                             name := name file;
                                             extension := extension file;
                                             segments := x |}))
                    (map (fun change =>
                            {| path := pathOf change;
                               name := path_name (change_path change);
                               extension :=
                                 path_extension (change_path change);
                               segments := [] |})
                         (values body))
                    (World s1 (log w ++ [Fetch GET_changes]))).
    { unfold fetchChanges. unfold bind at 1.
      now rewrite fetchChangePaths_run, H. }
    rewrite R. clear R.
    match goal with
    | |- context [forEachAwait _ ?l ?w1] =>
        destruct (fetchChanges_loop_log respond l w1) as [k [Hk [Hlog Hok]]];
        pose proof (@fetchChanges_loop_keeps _ respond l) as Hkeep
    end.
    rewrite length_map in Hk. exists k. split; [exact Hk|]. split.
    + rewrite Hlog. cbn [log]. rewrite <- app_assoc. cbn [app]. do 2 f_equal.
      rewrite firstn_map, map_map. reflexivity.
    + intros files Hf.
      destruct (Hok files Hf) as [K1 [_ [K3 K4]]].
      rewrite length_map in K1. rewrite map_map in K3, K4.
      split; [exact K1|]. split; [exact K3|]. split; [exact K4|].
      match type of Hf with
      | fst ?run = _ => destruct run as [o w2] eqn:Er
      end.
      cbn [fst] in Hf. subst o.
      destruct (Hkeep files _ _ Er) as [He _].
      rewrite He, map_map. reflexivity.
  - intros body s1 H Hall.
    rewrite (fetchChanges_after_listing respond w H).
    destruct (@requestLoop_success server respond _ _ diffRequest fileOf _
                (fetchDetail_step respond) (values body)
                (World s1 (log w ++ [Fetch GET_changes])) Hall)
      as [files [R [L N]]].
    exists files. cbn [srv log] in R, N. rewrite <- app_assoc in R.
    split; [exact R|]. split; [exact L | exact N].
  - intros body s1 pre e post H Hv Hpre He.
    rewrite (fetchChanges_after_listing respond w H).
    pose proof (@requestLoop_failure server respond _ _ diffRequest fileOf _
                  (fetchDetail_step respond) pre (values body) e post
                  (World s1 (log w ++ [Fetch GET_changes])) Hv Hpre He) as R.
    cbn [srv log] in R. rewrite <- app_assoc in R. exact R.
Qed.

Lemma fetchChanges_requests_in_listing_order_witness :
  let lossy :=
    Unreliable.respond
      (fun r => match r with
                | GET_diff p => String.eqb p "db/mssql/readme.txt"
                | _ => false
                end) in
  let rv := Samples.reviewOf Samples.endToEnd in
  let w := InMemory.start rv in
  fetchChanges lossy w
  = (None,
     World rv [Fetch GET_changes; Fetch (GET_diff "web/src/app.js");
               Fetch (GET_diff "db/mssql/readme.txt")])
  /\ exists files,
       fetchChanges InMemory.respond w
       = (Some files,
          World rv (Fetch GET_changes
                      :: map (fun f => Fetch (GET_diff (path f)))
                             Samples.endToEnd))
       /\ List.length files = 4%nat.
Proof.
  intros lossy rv w. split.
  - apply (proj2 (proj2 (proj2
             (fetchChanges_requests_in_listing_order lossy w)))
             (Page (map Samples.toJson Samples.endToEnd)) rv
             [Samples.toJson (Samples.jsFile 150)]
             (Samples.toJson (Samples.otherFile "db/mssql/readme.txt"))
             (map Samples.toJson
                  [Samples.sqlFile "install/tables.sql"
                                   ["CREATE TABLE foo (id INT);"];
                   Samples.javaFile ["x.equals(y)"]])
             eq_refl eq_refl).
    + intros [|x pre1] e1 post1 E.
      * injection E as <- _. vm_compute. discriminate.
      * exfalso. injection E as _ E. destruct pre1; discriminate E.
    + reflexivity.
  - destruct (proj1 (proj2 (proj2
                (fetchChanges_requests_in_listing_order InMemory.respond w)))
                (Page (map Samples.toJson Samples.endToEnd)) rv eq_refl)
      as [files [R [L _]]].
    + intros pre e post _. discriminate.
    + exists files. split; [exact R | exact L].
Defined.

(* ------------------------------------------------------------------ *)
(** ** More on the run of [analyse] *)
(* ------------------------------------------------------------------ *)

Section AnalyseTrace.
Variable server : Type.
Variable respond : forall r : request, server -> option (response r) * server.
Variable prid : string.

Lemma forallb_taskCreated (cid : Z) (ts : list string) :
  forallb isCreateTask (map (taskCreated prid cid) ts) = true.
Proof. induction ts as [|t ts IH]; [reflexivity | exact IH]. Qed.

(** The requests of a run of [analyse], whatever its outcome: the comment
    is posted, then come reads, then task creations, then the reload if
    the run completes. *)
Lemma analyse_trace (w w' : world server) (o : option unit) :
  analyse respond prid w = (o, w') ->
  exists reads posted,
    log w'
    = log w ++ Fetch (POST_comments PARENT_COMMENT_TEXT)
        :: reads ++ posted
        ++ match o with
           | Some _ => [Reload]
           | None => []
           end
    /\ forallb readOnly reads = true
    /\ forallb isCreateTask posted = true
    /\ (List.length posted <= 5)%nat.
Proof.
  unfold analyse. unfold bind at 1.
  destruct (addParentComment_log respond w) as [evs [H0 P0]].
  destruct (addParentComment respond w) as [[[item|]|] w1]; cbn [snd] in H0;
    try (intros H; injection H as <- <-; exists evs, [];
         cbn [app]; rewrite H0, app_nil_r;
         repeat split; auto; simpl; lia).
  destruct (activity_comment item) as [c|];
    try (intros H; injection H as <- <-; exists evs, [];
         cbn [app]; rewrite H0, app_nil_r;
         repeat split; auto; simpl; lia).
  unfold bind at 1.
  destruct (fetchChanges_readOnly respond w1) as [evs1 [H1 P1]].
  destruct (fetchChanges respond w1) as [[changes|] w2]; cbn [snd] in H1.
  - unfold bind.
    destruct (addTask_loop_log respond prid (id c)
                (rev (collectTasks changes)) w2) as [k [Hk [Hlog _]]].
    rewrite length_rev in Hk. pose proof (collectTasks_le5 changes) as H5.
    destruct (forEachAwait _ (rev (collectTasks changes)) w2) as [[r|] w3];
      cbn [fst snd] in *; unfold reload;
      intros H; injection H as <- <-;
      exists (evs ++ evs1),
        (map (taskCreated prid (id c))
             (firstn k (rev (collectTasks changes))));
      cbn [log];
      rewrite Hlog, H1, H0, forallb_app, P0, P1, forallb_taskCreated,
        length_map, length_firstn, length_rev;
      (split; [rewrite <- !app_assoc; cbn [app];
               rewrite <- ?app_assoc, ?app_nil_r; reflexivity|]);
      repeat split; auto; lia.
  - intros H; injection H as <- <-. exists (evs ++ evs1), []. cbn [app].
    rewrite H1, H0, forallb_app, P0, P1, app_nil_r, <- app_assoc.
    repeat split; auto; simpl; lia.
Qed.

End AnalyseTrace.

(** X10.  Every run of [analyse], completed or not, starts by posting the
    parent comment, and posts it once; after that it only reads, then only
    creates tasks, five at most; it reloads the page at the very end when
    it completes, and never when it does not. *)
Theorem analyse_phases
        (server : Type)
        (respond : forall r : request, server -> option (response r) * server)
        (prid : string) (w : world server) :
  exists reads posted,
    log (snd (analyse respond prid w))
    = log w ++ Fetch (POST_comments PARENT_COMMENT_TEXT)
        :: reads ++ posted
        ++ match fst (analyse respond prid w) with
           | Some _ => [Reload]
           | None => []
           end
    /\ forallb readOnly reads = true
    /\ forallb isCreateTask posted = true
    /\ (List.length posted <= 5)%nat
    /\ count isCreateComment (log (snd (analyse respond prid w)))
       = (count isCreateComment (log w) + 1)%nat
    /\ count isReload (log (snd (analyse respond prid w)))
       = (count isReload (log w)
          + match fst (analyse respond prid w) with
            | Some _ => 1
            | None => 0
            end)%nat.
Proof.
  destruct (analyse respond prid w) as [o w'] eqn:E. cbn [fst snd].
  destruct (analyse_trace _ _ _ E) as [reads [posted [H [R [T L]]]]].
  exists reads, posted. repeat split; auto.
  - rewrite H.
    change (Fetch (POST_comments PARENT_COMMENT_TEXT) :: reads ++ posted ++ ?x)
      with ([Fetch (POST_comments PARENT_COMMENT_TEXT)]
              ++ reads ++ posted ++ x).
    rewrite !count_app.
    assert (C1 : count isCreateComment reads = 0%nat).
    { unfold count. clear H. induction reads as [|e reads IH]; [reflexivity|].
      simpl in R. apply andb_true_iff in R as [Re R].
      simpl. rewrite (readOnly_not_comment e Re). now apply IH. }
    assert (C2 : count isCreateComment posted = 0%nat).
    { unfold count. clear H L.
      induction posted as [|e posted IH]; [reflexivity|].
      simpl in T. apply andb_true_iff in T as [Te T].
      destruct e as [[]|]; try discriminate. simpl. now apply IH. }
    rewrite C1, C2. now destruct o.
  - rewrite H.
    change (Fetch (POST_comments PARENT_COMMENT_TEXT) :: reads ++ posted ++ ?x)
      with ([Fetch (POST_comments PARENT_COMMENT_TEXT)]
              ++ reads ++ posted ++ x).
    rewrite !count_app.
    assert (C1 : count isReload reads = 0%nat).
    { unfold count. clear H. induction reads as [|e reads IH]; [reflexivity|].
      simpl in R. apply andb_true_iff in R as [Re R].
      destruct e as [[]|]; try discriminate; simpl; now apply IH. }
    assert (C2 : count isReload posted = 0%nat).
    { unfold count. clear H L.
      induction posted as [|e posted IH]; [reflexivity|].
      simpl in T. apply andb_true_iff in T as [Te T].
      destruct e as [[]|]; try discriminate. simpl. now apply IH. }
    rewrite C1, C2. now destruct o.
Qed.

Lemma analyse_phases_witness :
  let lossy :=
    Unreliable.respond
      (fun r => match r with
                | POST_tasks _ _ t _ => String.eqb t notifyTeamTask
                | _ => false
                end) in
  let w := InMemory.start (Samples.reviewOf Samples.endToEnd) in
  fst (analyse lossy "7" w) = None
  /\ count isCreateComment (log (snd (analyse lossy "7" w))) = 1%nat
  /\ count isReload (log (snd (analyse lossy "7" w))) = 0%nat
  /\ count isReload (log (snd (analyse InMemory.respond "7" w))) = 1%nat.
Proof.
  intros lossy w. split; [reflexivity|].
  destruct (analyse_phases lossy "7" w)
    as [reads [posted [_ [_ [_ [_ [C R]]]]]]].
  destruct (analyse_phases InMemory.respond "7" w)
    as [reads' [posted' [_ [_ [_ [_ [_ R']]]]]]].
  split; [exact C|]. split; [exact R | exact R'].
Defined.

Section AnalyseAborts.
Variable server : Type.
Variable respond : forall r : request, server -> option (response r) * server.
Variable prid : string.

Lemma addParentComment_run (w : world server) :
  addParentComment respond w
  = match respond (POST_comments PARENT_COMMENT_TEXT) (srv w) with
    | (Some _, s1) =>
        match respond GET_activities s1 with
        | (Some body, s2) =>
            (Some (find isParentComment (values body)),
             World s2 (log w ++ [Fetch (POST_comments PARENT_COMMENT_TEXT);
                                 Fetch GET_activities]))
        | (None, s2) =>
            (None,
             World s2 (log w ++ [Fetch (POST_comments PARENT_COMMENT_TEXT);
                                 Fetch GET_activities]))
        end
    | (None, s1) =>
        (None, World s1 (log w ++ [Fetch (POST_comments PARENT_COMMENT_TEXT)]))
    end.
Proof.
  unfold addParentComment, getParentComment, bind, fetch. cbn [srv log].
  destruct (respond (POST_comments PARENT_COMMENT_TEXT) (srv w))
    as [[u|] s1]; [|reflexivity].
  cbn [srv log]. rewrite <- app_assoc.
  now destruct (respond GET_activities s1) as [[body|] s2].
Qed.

Lemma addTask_loop_prefix (cid : Z) (ts : list string) (w : world server) :
  exists k,
    (k <= List.length ts)%nat
    /\ log (snd (forEachAwait (fun t => addTask respond prid t cid) ts w))
       = log w ++ map (taskCreated prid cid) (firstn k ts)
    /\ (forall r,
          fst (forEachAwait (fun t => addTask respond prid t cid) ts w)
          = Some r -> k = List.length ts)
    /\ (fst (forEachAwait (fun t => addTask respond prid t cid) ts w) = None ->
        (1 <= k)%nat).
Proof.
  revert w; induction ts as [|t ts IH]; intros w.
  - exists 0%nat. split; [simpl; lia|]. split.
    + simpl. now rewrite app_nil_r.
    + split; [reflexivity | discriminate].
  - rewrite forEachAwait_cons.
    pose proof (addTask_log respond prid t cid w) as Hl.
    destruct (addTask respond prid t cid w) as [[a|] w1]; cbn [snd] in Hl.
    + destruct (IH w1) as [k [Hk [Hlog [Hok _]]]]. exists (S k).
      destruct (forEachAwait _ ts w1) as [[bs|] w2]; cbn [fst snd] in *;
        (split; [simpl; lia|]); (split;
          [rewrite Hlog, Hl, <- app_assoc; reflexivity|]).
      * split; [|discriminate]. intros r _. simpl. f_equal.
        now apply (Hok bs).
      * split; [discriminate | intros _; lia].
    + exists 1%nat. cbn [fst snd]. split; [simpl; lia|]. split.
      * rewrite Hl. reflexivity.
      * split; [discriminate | intros _; lia].
Qed.

End AnalyseAborts.

(** X11.  When the parent comment cannot be had, [analyse] rejects with
    nothing done beyond the requests of [addParentComment]: no change is
    fetched, no task created, no reload.  That is so when the post or the
    lookup fails, and when the feed fetched after the post holds no comment
    with the parent comment text. *)
Theorem analyse_rejects_without_parent_comment
        (server : Type)
        (respond : forall r : request, server -> option (response r) * server)
        (prid : string) (w : world server) :
  ((forall item, fst (addParentComment respond w) <> Some (Some item)) ->
   analyse respond prid w = (None, snd (addParentComment respond w)))
  /\ (forall s1 body s2,
        respond (POST_comments PARENT_COMMENT_TEXT) (srv w) = (Some tt, s1) ->
        respond GET_activities s1 = (Some body, s2) ->
        parentComments (values body) = 0%nat ->
        analyse respond prid w
        = (None,
           World s2 (log w ++ [Fetch (POST_comments PARENT_COMMENT_TEXT);
                               Fetch GET_activities]))).
Proof.
  assert (A : (forall item,
                  fst (addParentComment respond w) <> Some (Some item)) ->
              analyse respond prid w
              = (None, snd (addParentComment respond w))).
  { intros H. unfold analyse, bind.
    destruct (addParentComment respond w) as [[[item|]|] w1];
      try reflexivity.
    now destruct (H item). }
  split; [exact A|].
  intros s1 body s2 H1 H2 H0.
  apply find_none_parentComments in H0.
  rewrite A; rewrite addParentComment_run, H1, H2, H0;
    [reflexivity | discriminate].
Qed.

Lemma analyse_rejects_without_parent_comment_witness :
  let w := World tt [] in
  analyse Blank.respond "7" w
  = (None, World tt [Fetch (POST_comments PARENT_COMMENT_TEXT);
                     Fetch GET_activities]).
Proof.
  intros w.
  exact (proj2 (analyse_rejects_without_parent_comment Blank.respond "7" w)
               tt (Page []) tt eq_refl eq_refl eq_refl).
Defined.

(** X12.  Once the parent comment is found and the changes are fetched,
    the tasks [analyse] creates are the findings last to first, each under
    the id of the parent comment and with state OPEN.  When every creation
    is answered the run creates them all, reloads the page and completes.
    When one is not, the run stops at the first such: it has sent the
    creations up to and including that one, sends none after it, undoes
    none, does not reload, and rejects. *)
Theorem analyse_publishes_a_prefix
        (server : Type)
        (respond : forall r : request, server -> option (response r) * server)
        (prid : string) (w w1 w2 : world server)
        (item : activityItem) (c : comment) (changes : list changedFile) :
  addParentComment respond w = (Some (Some item), w1) ->
  activity_comment item = Some c ->
  fetchChanges respond w1 = (Some changes, w2) ->
  (exists k,
      (k <= List.length (collectTasks changes))%nat
      /\ log (snd (analyse respond prid w))
         = log w2
           ++ map (taskCreated prid (id c))
                  (firstn k (rev (collectTasks changes)))
           ++ match fst (analyse respond prid w) with
              | Some _ => [Reload]
              | None => []
              end
      /\ (fst (analyse respond prid w) = Some tt ->
          k = List.length (collectTasks changes))
      /\ (fst (analyse respond prid w) = None -> (1 <= k)%nat))
  /\ ((forall pre t post,
          rev (collectTasks changes) = pre ++ t :: post ->
          answerAfter respond (map (taskRequest prid (id c)) pre) (srv w2)
                      (taskRequest prid (id c) t) <> None) ->
      analyse respond prid w
      = (Some tt,
         World (stateAfter respond
                           (map (taskRequest prid (id c))
                                (rev (collectTasks changes)))
                           (srv w2))
               (log w2
                ++ map (taskCreated prid (id c)) (rev (collectTasks changes))
                ++ [Reload])))
  /\ (forall pre t post,
        rev (collectTasks changes) = pre ++ t :: post ->
        (forall pre1 t1 post1,
            pre = pre1 ++ t1 :: post1 ->
            answerAfter respond (map (taskRequest prid (id c)) pre1) (srv w2)
                        (taskRequest prid (id c) t1) <> None) ->
        answerAfter respond (map (taskRequest prid (id c)) pre) (srv w2)
                    (taskRequest prid (id c) t) = None ->
        analyse respond prid w
        = (None,
           World (stateAfter respond
                             (map (taskRequest prid (id c)) (pre ++ [t]))
                             (srv w2))
                 (log w2 ++ map (taskCreated prid (id c)) (pre ++ [t])))).
Proof.
  intros Ha Hc Hf.
  assert (A : analyse respond prid w
              = bind (forEachAwait (fun t => addTask respond prid t (id c))
                                   (rev (collectTasks changes)))
                     (fun _ => reload) w2).
  { unfold analyse. unfold bind at 1. rewrite Ha, Hc.
    unfold bind at 1. now rewrite Hf. }
  split; [|split].
  - rewrite A. unfold bind.
    destruct (addTask_loop_prefix respond prid (id c)
                (rev (collectTasks changes)) w2)
      as [k [Hk [Hlog [Hok Hfail]]]].
    rewrite length_rev in Hk, Hok. exists k.
    destruct (forEachAwait _ (rev (collectTasks changes)) w2) as [[r|] w3];
      cbn [fst snd] in *; unfold reload; cbn [fst snd log]; rewrite Hlog.
    + split; [exact Hk|]. split; [now rewrite <- app_assoc|].
      split; [intros _; now apply (Hok r) | discriminate].
    + split; [exact Hk|]. split; [now rewrite app_nil_r|].
      split; [discriminate | intros _; now apply Hfail].
  - intros Hall. rewrite A. unfold bind.
    destruct (@requestLoop_success server respond _ _
                (taskRequest prid (id c)) (fun _ _ => tt)
                (fun t => addTask respond prid t (id c))
                (addTask_step respond prid (id c))
                (rev (collectTasks changes)) w2 Hall)
      as [bs [R _]].
    rewrite R. unfold reload. cbn [srv log]. now rewrite <- app_assoc.
  - intros pre t post Hv Hpre Ht. rewrite A. unfold bind.
    now rewrite (@requestLoop_failure server respond _ _
                   (taskRequest prid (id c)) (fun _ _ => tt)
                   (fun t => addTask respond prid t (id c))
                   (addTask_step respond prid (id c))
                   pre (rev (collectTasks changes)) t post w2 Hv Hpre Ht).
Qed.

Lemma analyse_publishes_a_prefix_witness :
  let lossy :=
    Unreliable.respond
      (fun r => match r with
                | POST_tasks _ _ t _ => String.eqb t dropScriptsTask
                | _ => false
                end) in
  let w := InMemory.start (Samples.reviewOf Samples.endToEnd) in
  fst (analyse lossy "7" w) = None
  /\ filter isCreateTask (log (snd (analyse lossy "7" w)))
     = map (taskCreated "7" 1) [dotEqualsTask; dropScriptsTask]
  /\ fst (analyse InMemory.respond "7" w) = Some tt
  /\ filter isCreateTask (log (snd (analyse InMemory.respond "7" w)))
     = map (taskCreated "7" 1)
           [dotEqualsTask; dropScriptsTask; notifyTeamTask;
            mssqlNotOracleTask; significantChangesTask].
Proof.
  intros lossy w.
  destruct (@analyse_publishes_a_prefix
              InMemory.review lossy "7" w
              (snd (addParentComment lossy w))
              (snd (fetchChanges lossy (snd (addParentComment lossy w))))
              (ActivityItem (Some (Comment 1 PARENT_COMMENT_TEXT [])))
              (Comment 1 PARENT_COMMENT_TEXT [])
              Samples.endToEnd eq_refl eq_refl eq_refl)
    as [_ [_ F]].
  destruct (@analyse_publishes_a_prefix
              InMemory.review InMemory.respond "7" w
              (snd (addParentComment InMemory.respond w))
              (snd (fetchChanges InMemory.respond
                                 (snd (addParentComment InMemory.respond w))))
              (ActivityItem (Some (Comment 1 PARENT_COMMENT_TEXT [])))
              (Comment 1 PARENT_COMMENT_TEXT [])
              Samples.endToEnd eq_refl eq_refl eq_refl)
    as [_ [S _]].
  assert (RF : analyse lossy "7" w
               = (None,
                  World (stateAfter lossy
                           (map (taskRequest "7" 1)
                                ([dotEqualsTask] ++ [dropScriptsTask]))
                           (srv (snd (fetchChanges lossy
                                        (snd (addParentComment lossy w))))))
                        (log (snd (fetchChanges lossy
                                     (snd (addParentComment lossy w))))
                         ++ map (taskCreated "7" 1)
                                ([dotEqualsTask] ++ [dropScriptsTask])))).
  { apply (F [dotEqualsTask] dropScriptsTask
             [notifyTeamTask; mssqlNotOracleTask; significantChangesTask]
             eq_refl).
    - intros [|x pre1] t1 post1 E.
      + injection E as <- _. vm_compute. discriminate.
      + exfalso. injection E as _ E. destruct pre1; discriminate E.
    - reflexivity. }
  assert (RS : analyse InMemory.respond "7" w
               = (Some tt,
                  World (stateAfter InMemory.respond
                           (map (taskRequest "7" 1)
                                (rev (collectTasks Samples.endToEnd)))
                           (srv (snd (fetchChanges InMemory.respond
                                        (snd (addParentComment
                                                InMemory.respond w))))))
                        (log (snd (fetchChanges InMemory.respond
                                     (snd (addParentComment
                                             InMemory.respond w))))
                         ++ map (taskCreated "7" 1)
                                (rev (collectTasks Samples.endToEnd))
                         ++ [Reload]))).
  { apply S. intros pre t post _. discriminate. }
  rewrite RF, RS. cbn [fst snd log].
  split; [reflexivity|]. split; [reflexivity|]. split; reflexivity.
Defined.

Lemma readOnly_not_reload (e : event) :
  readOnly e = true -> isReload e = false.
Proof. destruct e as [[]|]; simpl; congruence. Qed.

(** X13.  When fetching the changes fails, [analyse] rejects there: it has
    posted the parent comment, but it creates no task and does not reload
    the page. *)
Theorem analyse_stops_when_changes_fail
        (server : Type)
        (respond : forall r : request, server -> option (response r) * server)
        (prid : string) (w w1 : world server)
        (item : activityItem) (c : comment) :
  addParentComment respond w = (Some (Some item), w1) ->
  activity_comment item = Some c ->
  fst (fetchChanges respond w1) = None ->
  analyse respond prid w = (None, snd (fetchChanges respond w1))
  /\ count isCreateTask (log (snd (analyse respond prid w)))
     = count isCreateTask (log w)
  /\ count isReload (log (snd (analyse respond prid w)))
     = count isReload (log w).
Proof.
  intros Ha Hc Hf.
  assert (A : analyse respond prid w = (None, snd (fetchChanges respond w1))).
  { unfold analyse, bind. rewrite Ha, Hc.
    destruct (fetchChanges respond w1) as [[changes|] w2];
      [discriminate | reflexivity]. }
  split; [exact A|]. rewrite A. cbn [snd].
  destruct (addParentComment_log respond w) as [evs [H0 P0]].
  rewrite Ha in H0. cbn [snd] in H0.
  assert (X : extendsBy readOnly
                (World (srv w)
                       (log w ++ [Fetch (POST_comments PARENT_COMMENT_TEXT)]))
                (snd (fetchChanges respond w1))).
  { apply extendsBy_trans with w1.
    - exists evs. split; [|exact P0]. cbn [log].
      now rewrite H0, <- app_assoc.
    - apply fetchChanges_readOnly. }
  split.
  - rewrite (extendsBy_count isCreateTask readOnly_not_task X).
    cbn [log]. rewrite count_app. unfold count. simpl. lia.
  - rewrite (extendsBy_count isReload readOnly_not_reload X).
    cbn [log]. rewrite count_app. unfold count. simpl. lia.
Qed.

Lemma analyse_stops_when_changes_fail_witness :
  let lossy :=
    Unreliable.respond
      (fun r => match r with
                | GET_diff p => String.eqb p "install/tables.sql"
                | _ => false
                end) in
  let w := InMemory.start (Samples.reviewOf Samples.endToEnd) in
  fst (analyse lossy "7" w) = None
  /\ count isCreateTask (log (snd (analyse lossy "7" w))) = 0%nat
  /\ count isReload (log (snd (analyse lossy "7" w))) = 0%nat.
Proof.
  intros lossy w.
  destruct (@analyse_stops_when_changes_fail
              InMemory.review lossy "7" w (snd (addParentComment lossy w))
              (ActivityItem (Some (Comment 1 PARENT_COMMENT_TEXT [])))
              (Comment 1 PARENT_COMMENT_TEXT [])
              eq_refl eq_refl eq_refl) as [A [T R]].
  split; [now rewrite A|]. split; [exact T | exact R].
Defined.

(* ------------------------------------------------------------------ *)
(** ** More on the parent comment and the container *)
(* ------------------------------------------------------------------ *)

Lemma find_first (A : Type) (p : A -> bool) (l : list A) (x : A) :
  find p l = Some x ->
  exists pre post,
    l = pre ++ x :: post /\ p x = true /\ forallb (fun a => negb (p a)) pre = true.
Proof.
  induction l as [|a l IH]; [discriminate|]. simpl.
  destruct (p a) eqn:E.
  - intros H. injection H as <-. now exists [], l.
  - intros H. destruct (IH H) as [pre [post [-> [Hx Hpre]]]].
    exists (a :: pre), post. simpl. now rewrite E, Hpre.
Qed.

(** X14.  [getParentComment] sends the one request for the activities and
    returns the first activity of the feed whose comment has exactly the
    parent comment text, passing over activities without a comment and
    comments with another text, and leaving later matches aside; it
    returns nothing exactly when the feed has no such activity.  It rejects
    only when the request fails. *)
Theorem getParentComment_returns_first_match
        (server : Type)
        (respond : forall r : request, server -> option (response r) * server)
        (w : world server) :
  log (snd (getParentComment respond w)) = log w ++ [Fetch GET_activities]
  /\ (fst (getParentComment respond w) = None
      <-> fst (respond GET_activities (srv w)) = None)
  /\ (forall body s1,
        respond GET_activities (srv w) = (Some body, s1) ->
        (forall item,
            fst (getParentComment respond w) = Some (Some item) ->
            exists pre post c,
              values body = pre ++ item :: post
              /\ forallb (fun a => negb (isParentComment a)) pre = true
              /\ activity_comment item = Some c
              /\ text c = PARENT_COMMENT_TEXT)
        /\ (fst (getParentComment respond w) = Some None
            <-> forall a, In a (values body) -> isParentComment a = false)).
Proof.
  assert (R : getParentComment respond w
              = (option_map (fun body => find isParentComment (values body))
                            (fst (respond GET_activities (srv w))),
                 World (snd (respond GET_activities (srv w)))
                       (log w ++ [Fetch GET_activities]))).
  { unfold getParentComment, bind, fetch.
    now destruct (respond GET_activities (srv w)) as [[body|] s1]. }
  rewrite R. cbn [fst snd log]. split; [reflexivity|]. split.
  - now destruct (fst (respond GET_activities (srv w))).
  - intros body s1 H. rewrite H. cbn [fst option_map]. split.
    + intros item E. injection E as E.
      destruct (find_first _ _ E) as [pre [post [Hv [Hp Hpre]]]].
      unfold isParentComment in Hp.
      destruct (activity_comment item) as [c|] eqn:Ec; [|discriminate].
      apply String.eqb_eq in Hp. now exists pre, post, c.
    + split.
      * intros E. injection E as E. intros a Ha.
        now apply (find_none _ _ E).
      * intros Hall. f_equal.
        destruct (find isParentComment (values body)) as [x|] eqn:E;
          [|reflexivity].
        destruct (find_some _ _ E) as [Hin Hx].
        rewrite (Hall x Hin) in Hx. discriminate.
Qed.

Lemma getParentComment_returns_first_match_witness :
  let feed :=
    [ActivityItem None;
     ActivityItem (Some (Comment 9 "looks good to me" []));
     ActivityItem (Some (Comment 5 PARENT_COMMENT_TEXT []));
     ActivityItem (Some (Comment 3 PARENT_COMMENT_TEXT []))] in
  let w := InMemory.start (InMemory.Review [] [] feed 10) in
  fst (getParentComment InMemory.respond w)
  = Some (Some (ActivityItem (Some (Comment 5 PARENT_COMMENT_TEXT []))))
  /\ exists pre post c,
       feed = pre ++ ActivityItem (Some (Comment 5 PARENT_COMMENT_TEXT []))
                  :: post
       /\ forallb (fun a => negb (isParentComment a)) pre = true
       /\ Some (Comment 5 PARENT_COMMENT_TEXT []) = Some c
       /\ text c = PARENT_COMMENT_TEXT.
Proof.
  intros feed w. split; [reflexivity|].
  exact (proj1 (proj2 (proj2 (getParentComment_returns_first_match
                                InMemory.respond w))
                      (Page feed) (InMemory.Review [] [] feed 10) eq_refl)
               (ActivityItem (Some (Comment 5 PARENT_COMMENT_TEXT [])))
               eq_refl).
Defined.

(** X15.  [initialiseAnalyserContainer] rejects only when the request for
    the activities fails.  Otherwise it shows the Analyse button when the
    feed has no parent comment, and only then; and else the tasks of the
    first parent comment of the feed, and of that one only: "All good!"
    when it has none, and the list when it has some, so the list shown is
    never empty. *)
Theorem initialiseAnalyserContainer_outcomes
        (server : Type)
        (respond : forall r : request, server -> option (response r) * server)
        (w : world server) :
  (fst (initialiseAnalyserContainer respond w) = None
   <-> fst (respond GET_activities (srv w)) = None)
  /\ (forall ts,
        fst (initialiseAnalyserContainer respond w) = Some (TaskList ts) ->
        ts <> [])
  /\ (forall body s1 item c,
        respond GET_activities (srv w) = (Some body, s1) ->
        find isParentComment (values body) = Some item ->
        activity_comment item = Some c ->
        fst (initialiseAnalyserContainer respond w)
        = Some (match tasks c with
                | [] => AllGood
                | _ :: _ => TaskList (tasks c)
                end))
  /\ (forall body s1,
        respond GET_activities (srv w) = (Some body, s1) ->
        (fst (initialiseAnalyserContainer respond w) = Some AnalyseButton
         <-> forall a, In a (values body) -> isParentComment a = false)
        /\ (find isParentComment (values body) = None ->
            initialiseAnalyserContainer respond w
            = (Some AnalyseButton,
               World s1 (log w ++ [Fetch GET_activities])))).
Proof.
  assert (R : getParentComment respond w
              = (option_map (fun body => find isParentComment (values body))
                            (fst (respond GET_activities (srv w))),
                 World (snd (respond GET_activities (srv w)))
                       (log w ++ [Fetch GET_activities]))).
  { unfold getParentComment, bind, fetch.
    now destruct (respond GET_activities (srv w)) as [[body|] s1]. }
  unfold initialiseAnalyserContainer, bind. rewrite R. clear R.
  destruct (respond GET_activities (srv w)) as [[body|] s1];
    cbn [fst snd option_map].
  - destruct (find isParentComment (values body)) as [item|] eqn:E.
    + destruct (find_some _ _ E) as [Hin Hp].
      pose proof Hp as Hp'. unfold isParentComment in Hp.
      destruct (activity_comment item) as [c|] eqn:Ec; [|discriminate].
      assert (NB : ~ (forall a, In a (values body) ->
                                isParentComment a = false)).
      { intros Hall. rewrite (Hall item Hin) in Hp'. discriminate. }
      destruct (tasks c) as [|t ts'] eqn:Et; cbn [List.length Nat.eqb ret fst];
        (split; [split; discriminate|]); (split; [|split]).
      * discriminate.
      * intros body' s1' item' c' Hb Hi Hc.
        injection Hb as <- _. rewrite E in Hi. injection Hi as <-.
        rewrite Ec in Hc. injection Hc as <-. now rewrite Et.
      * intros body' s1' Hb. injection Hb as <- _. rewrite E.
        split; [split; [discriminate | intros H; now destruct NB]
               | discriminate].
      * intros ts H. injection H as <-. discriminate.
      * intros body' s1' item' c' Hb Hi Hc.
        injection Hb as <- _. rewrite E in Hi. injection Hi as <-.
        rewrite Ec in Hc. injection Hc as <-. now rewrite Et.
      * intros body' s1' Hb. injection Hb as <- _. rewrite E.
        split; [split; [discriminate | intros H; now destruct NB]
               | discriminate].
    + cbn [ret fst]. split; [split; discriminate|]. split; [discriminate|].
      split.
      * intros body' s1' item' c' Hb Hi. injection Hb as <- _.
        rewrite E in Hi. discriminate.
      * intros body' s1' Hb. injection Hb as <- <-. rewrite E. split.
        -- split; [|reflexivity]. intros _ a Ha.
           now apply (find_none _ _ E).
        -- reflexivity.
  - split; [now split|]. split; [discriminate|]. split; discriminate.
Qed.

Lemma initialiseAnalyserContainer_outcomes_witness :
  let feed :=
    [ActivityItem (Some (Comment 5 PARENT_COMMENT_TEXT []));
     ActivityItem (Some (Comment 3 PARENT_COMMENT_TEXT
                                 [Task dotEqualsTask "OPEN"]))] in
  let other :=
    [ActivityItem None;
     ActivityItem (Some (Comment 9 "looks good to me"
                                 [Task "rename it" "OPEN"]))] in
  let w := InMemory.start (InMemory.Review [] [] feed 10) in
  let w' := InMemory.start (InMemory.Review [] [] other 10) in
  fst (initialiseAnalyserContainer InMemory.respond w) = Some AllGood
  /\ initialiseAnalyserContainer InMemory.respond w'
     = (Some AnalyseButton,
        World (InMemory.Review [] [] other 10) [Fetch GET_activities]).
Proof.
  intros feed other w w'. split.
  - exact (proj1 (proj2 (proj2 (initialiseAnalyserContainer_outcomes
                                  InMemory.respond w)))
                 (Page feed) (InMemory.Review [] [] feed 10)
                 (ActivityItem (Some (Comment 5 PARENT_COMMENT_TEXT [])))
                 (Comment 5 PARENT_COMMENT_TEXT [])
                 eq_refl eq_refl eq_refl).
  - exact (proj2 (proj2 (proj2 (proj2 (initialiseAnalyserContainer_outcomes
                                         InMemory.respond w')))
                        (Page other) (InMemory.Review [] [] other 10)
                        eq_refl)
                 eq_refl).
Defined.

(* ------------------------------------------------------------------ *)
(** ** The merge time window *)
(* ------------------------------------------------------------------ *)

Section MergeTimeFacts.
Import MergeTime.
Local Open Scope string_scope.

Lemma compare_app_same_length (x1 x2 y1 y2 : string) :
  String.length x1 = String.length x2 ->
  String.compare (x1 ++ y1) (x2 ++ y2)
  = match String.compare x1 x2 with
    | Eq => String.compare y1 y2
    | c => c
    end.
Proof.
  revert x2; induction x1 as [|a x1 IH]; intros [|b x2] H;
    try discriminate; [reflexivity|].
  simpl. destruct (Ascii.compare a b); try reflexivity.
  apply IH. now injection H.
Qed.

(** Two digits, in the order of the numbers they stand for. *)
Lemma pad2_table (a b : nat) :
  (a < 60)%nat -> (b < 60)%nat ->
  String.length (padStart 2 "0" (numberToString a)) = 2%nat
  /\ String.compare (padStart 2 "0" (numberToString a))
                    (padStart 2 "0" (numberToString b))
     = Nat.compare a b.
Proof.
  intros Ha Hb.
  assert (T : forallb
                (fun a =>
                   forallb
                     (fun b =>
                        (String.length (padStart 2 "0" (numberToString a))
                         =? 2)%nat
                        && match String.compare
                                   (padStart 2 "0" (numberToString a))
                                   (padStart 2 "0" (numberToString b)),
                                 Nat.compare a b with
                           | Eq, Eq | Lt, Lt | Gt, Gt => true
                           | _, _ => false
                           end)
                     (seq 0 60))
                (seq 0 60) = true) by (vm_compute; reflexivity).
  rewrite forallb_forall in T.
  assert (Ia : In a (seq 0 60)) by (apply in_seq; lia).
  assert (Ib : In b (seq 0 60)) by (apply in_seq; lia).
  pose proof (T a Ia) as Ta. rewrite forallb_forall in Ta.
  pose proof (Ta b Ib) as Tab.
  apply andb_true_iff in Tab as [L C]. apply Nat.eqb_eq in L.
  split; [exact L|].
  destruct (String.compare _ _), (Nat.compare a b);
    try reflexivity; discriminate.
Qed.

Lemma timeString_compare (d1 d2 : date) :
  validDate d1 -> validDate d2 ->
  String.compare (timeString d1) (timeString d2)
  = Nat.compare (minuteOfDay d1) (minuteOfDay d2).
Proof.
  intros [H1 M1] [H2 M2]. unfold timeString, minuteOfDay.
  destruct (pad2_table (a := getHours d1) (b := getHours d2))
    as [L1 C1]; try lia.
  destruct (pad2_table (a := getHours d2) (b := getHours d2))
    as [L2 _]; try lia.
  destruct (pad2_table (a := getMinutes d1) (b := getMinutes d2))
    as [_ C2]; try lia.
  rewrite compare_app_same_length by congruence. rewrite C1.
  change (String.compare (":" ++ ?x) (":" ++ ?y)) with (String.compare x y).
  rewrite C2.
  destruct (Nat.compare_spec (getHours d1) (getHours d2)) as [E|E|E].
  - rewrite E.
    destruct (Nat.compare_spec (getMinutes d1) (getMinutes d2)) as [F|F|F];
      symmetry;
      [apply Nat.compare_eq_iff | apply Nat.compare_lt_iff
       | apply Nat.compare_gt_iff]; lia.
  - symmetry. apply Nat.compare_lt_iff. lia.
  - symmetry. apply Nat.compare_gt_iff. lia.
Qed.

Lemma timeString_leb (d1 d2 : date) :
  validDate d1 -> validDate d2 ->
  String.leb (timeString d1) (timeString d2)
  = (minuteOfDay d1 <=? minuteOfDay d2)%nat.
Proof.
  intros V1 V2. unfold String.leb. rewrite (timeString_compare V1 V2).
  destruct (Nat.compare_spec (minuteOfDay d1) (minuteOfDay d2)) as [E|E|E];
    symmetry;
    [apply Nat.leb_le | apply Nat.leb_le | apply Nat.leb_gt]; lia.
Qed.

End MergeTimeFacts.

(** X16.  For a range whose ends are written as the script writes the
    current time (two digits, a colon, two digits), [isWithinRange] holds
    exactly when the time of day is between the two ends, both included;
    so the window in which the merge button is replaced is 18:30 to 20:59,
    the minute 18:30 and the minute 20:59 included. *)
Theorem isWithinRange_is_clock_interval (a b d : MergeTime.date) :
  MergeTime.validDate a -> MergeTime.validDate b -> MergeTime.validDate d ->
  (MergeTime.isWithinRange
     (MergeTime.Range (MergeTime.timeString a) (MergeTime.timeString b)) d
   = true
   <-> (MergeTime.minuteOfDay a <= MergeTime.minuteOfDay d
        <= MergeTime.minuteOfDay b)%nat)
  /\ (MergeTime.isWithinRange MergeTime.NON_SUITABLE_TIME_RANGE d = true
      <-> (18 * 60 + 30 <= MergeTime.minuteOfDay d <= 20 * 60 + 59)%nat).
Proof.
  intros Va Vb Vd.
  assert (G : forall x y,
             MergeTime.validDate x -> MergeTime.validDate y ->
             (MergeTime.isWithinRange
                (MergeTime.Range (MergeTime.timeString x)
                                 (MergeTime.timeString y)) d = true
              <-> (MergeTime.minuteOfDay x <= MergeTime.minuteOfDay d
                   <= MergeTime.minuteOfDay y)%nat)).
  { intros x y Vx Vy. unfold MergeTime.isWithinRange.
    cbn [MergeTime.from MergeTime.to].
    rewrite (timeString_leb Vx Vd), (timeString_leb Vd Vy).
    rewrite andb_true_iff, !Nat.leb_le. reflexivity. }
  split; [exact (G a b Va Vb)|].
  assert (V1 : MergeTime.validDate (MergeTime.Date 18 30))
    by (unfold MergeTime.validDate; simpl; lia).
  assert (V2 : MergeTime.validDate (MergeTime.Date 20 59))
    by (unfold MergeTime.validDate; simpl; lia).
  exact (G (MergeTime.Date 18 30) (MergeTime.Date 20 59) V1 V2).
Qed.

Lemma isWithinRange_is_clock_interval_witness :
  MergeTime.isWithinRange MergeTime.NON_SUITABLE_TIME_RANGE
                          (MergeTime.Date 18 30) = true
  /\ MergeTime.isWithinRange MergeTime.NON_SUITABLE_TIME_RANGE
                             (MergeTime.Date 20 59) = true
  /\ MergeTime.isWithinRange
       (MergeTime.Range "09:05" "09:05") (MergeTime.Date 9 5) = true.
Proof.
  assert (V : forall h m, (h < 24)%nat -> (m < 60)%nat ->
                          MergeTime.validDate (MergeTime.Date h m))
    by (intros h m Hh Hm; now split).
  split; [|split].
  - apply (proj2 (isWithinRange_is_clock_interval
                    (a := MergeTime.Date 0 0) (b := MergeTime.Date 0 0)
                    (d := MergeTime.Date 18 30)
                    ltac:(apply V; lia) ltac:(apply V; lia)
                    ltac:(apply V; lia))).
    unfold MergeTime.minuteOfDay. simpl. lia.
  - apply (proj2 (isWithinRange_is_clock_interval
                    (a := MergeTime.Date 0 0) (b := MergeTime.Date 0 0)
                    (d := MergeTime.Date 20 59)
                    ltac:(apply V; lia) ltac:(apply V; lia)
                    ltac:(apply V; lia))).
    unfold MergeTime.minuteOfDay. simpl. lia.
  - apply (proj1 (isWithinRange_is_clock_interval
                    (a := MergeTime.Date 9 5) (b := MergeTime.Date 9 5)
                    (d := MergeTime.Date 9 5)
                    ltac:(apply V; lia) ltac:(apply V; lia)
                    ltac:(apply V; lia))).
    unfold MergeTime.minuteOfDay. simpl. lia.
Defined.

(** X17.  A range that ends before it starts, as one across midnight
    would, contains no time at all. *)
Theorem isWithinRange_overnight_range_is_empty (a b d : MergeTime.date) :
  MergeTime.validDate a -> MergeTime.validDate b -> MergeTime.validDate d ->
  (MergeTime.minuteOfDay b < MergeTime.minuteOfDay a)%nat ->
  MergeTime.isWithinRange
    (MergeTime.Range (MergeTime.timeString a) (MergeTime.timeString b)) d
  = false.
Proof.
  intros Va Vb Vd H. unfold MergeTime.isWithinRange.
  cbn [MergeTime.from MergeTime.to].
  rewrite (timeString_leb Va Vd), (timeString_leb Vd Vb).
  apply andb_false_iff.
  destruct (Nat.leb_spec (MergeTime.minuteOfDay a) (MergeTime.minuteOfDay d));
    [right; apply Nat.leb_gt; lia | now left].
Qed.

Lemma isWithinRange_overnight_range_is_empty_witness :
  MergeTime.isWithinRange (MergeTime.Range "22:00" "02:00")
                          (MergeTime.Date 23 15) = false.
Proof.
  apply (isWithinRange_overnight_range_is_empty
           (a := MergeTime.Date 22 0) (b := MergeTime.Date 2 0)
           (d := MergeTime.Date 23 15));
    unfold MergeTime.validDate, MergeTime.minuteOfDay; simpl; lia.
Defined.

(* ------------------------------------------------------------------ *)
(** ** The pull request of the page *)
(* ------------------------------------------------------------------ *)

Section PRMetadataFacts.
Import PRMetadata.
Local Open Scope string_scope.

Lemma string_app_assoc (x y z : string) : (x ++ y) ++ z = x ++ (y ++ z).
Proof. induction x as [|c x IH]; simpl; [reflexivity | now rewrite IH]. Qed.

Lemma split_nonempty (c : ascii) (s : string) : split c s <> [].
Proof.
  induction s as [|d s IH]; simpl; [discriminate|].
  destruct (Ascii.eqb d c); [discriminate|].
  destruct (split c s); [now destruct IH | discriminate].
Qed.

(** A part without the separator is split off whole. *)
Lemma split_part (c : ascii) (a rest : string) :
  free c a = true ->
  split c (a ++ String c rest) = a :: split c rest.
Proof.
  induction a as [|d a IH]; simpl.
  - intros _. now rewrite Ascii.eqb_refl.
  - intros H. apply andb_true_iff in H as [Hd Ha].
    apply negb_true_iff in Hd. rewrite Hd, (IH Ha). reflexivity.
Qed.

Lemma split_last (c : ascii) (a : string) :
  free c a = true -> split c a = [a].
Proof.
  induction a as [|d a IH]; simpl; [reflexivity|].
  intros H. apply andb_true_iff in H as [Hd Ha].
  apply negb_true_iff in Hd. rewrite Hd, (IH Ha). reflexivity.
Qed.

Lemma split_length (c : ascii) (s : string) :
  List.length (split c s) = S (occurrences c s).
Proof.
  induction s as [|d s IH]; simpl; [reflexivity|].
  destruct (Ascii.eqb d c); simpl; [now rewrite IH|].
  pose proof (split_nonempty c s) as N.
  destruct (split c s) as [|p ps]; [now destruct N|].
  simpl in *. exact IH.
Qed.

Lemma getPRMetadata_positions (a p b r c i rest : string) :
  free "/" a = true -> free "/" p = true -> free "/" b = true ->
  free "/" r = true -> free "/" c = true -> free "/" i = true ->
  getPRMetadata ("/" ++ a ++ "/" ++ p ++ "/" ++ b ++ "/" ++ r ++ "/" ++ c
                     ++ "/" ++ i ++ "/" ++ rest)
  = Metadata (Some p) (Some r) (Some i).
Proof.
  intros Ha Hp Hb Hr Hc Hi. unfold getPRMetadata.
  change ("/" ++ a ++ "/" ++ p ++ "/" ++ b ++ "/" ++ r ++ "/" ++ c
              ++ "/" ++ i ++ "/" ++ rest)
    with ("" ++ String "/" (a ++ String "/" (p ++ String "/"
            (b ++ String "/" (r ++ String "/" (c ++ String "/"
              (i ++ String "/" rest))))))).
  rewrite (split_part "/" "" _ eq_refl).
  rewrite (split_part "/" a _ Ha), (split_part "/" p _ Hp),
    (split_part "/" b _ Hb), (split_part "/" r _ Hr),
    (split_part "/" c _ Hc), (split_part "/" i _ Hi).
  reflexivity.
Qed.

End PRMetadataFacts.

(** X18.  On the page of a pull request, whose path is
    [/projects/P/repos/R/pull-requests/N/overview], [getPRMetadata] gives
    the project [P], the repository [R] and the pull request [N], and the
    prefix of the REST calls is the base URL followed by that path without
    its [/overview].  Only the positions count: the parts at the places of
    [projects], [repos] and [pull-requests] are not looked at. *)
Theorem getPRMetadata_of_pull_request_page (p r i : string) :
  PRMetadata.free "/" p = true ->
  PRMetadata.free "/" r = true ->
  PRMetadata.free "/" i = true ->
  let pathname :=
    ("/projects/" ++ p ++ "/repos/" ++ r ++ "/pull-requests/" ++ i
     ++ "/overview")%string in
  PRMetadata.getPRMetadata pathname
  = PRMetadata.Metadata (Some p) (Some r) (Some i)
  /\ (PRMetadata.prFetchURLPrefix pathname ++ "/overview")%string
     = (PRMetadata.baseURL ++ pathname)%string
  /\ (forall a b c rest,
        PRMetadata.free "/" a = true -> PRMetadata.free "/" b = true ->
        PRMetadata.free "/" c = true ->
        PRMetadata.getPRMetadata
          ("/" ++ a ++ "/" ++ p ++ "/" ++ b ++ "/" ++ r ++ "/" ++ c
               ++ "/" ++ i ++ "/" ++ rest)%string
        = PRMetadata.getPRMetadata pathname).
Proof.
  intros Hp Hr Hi pathname.
  assert (E : PRMetadata.getPRMetadata pathname
              = PRMetadata.Metadata (Some p) (Some r) (Some i)).
  { exact (@getPRMetadata_positions
             "projects" p "repos" r "pull-requests" i "overview"
             eq_refl Hp eq_refl Hr eq_refl Hi). }
  split; [exact E|]. split.
  - unfold PRMetadata.prFetchURLPrefix. rewrite E.
    cbn [PRMetadata.project PRMetadata.repo PRMetadata.prid
         PRMetadata.interpolate].
    unfold pathname, PRMetadata.baseURL.
    now rewrite !string_app_assoc.
  - intros a b c rest Ha Hb Hc. rewrite E.
    now apply getPRMetadata_positions.
Qed.

Lemma getPRMetadata_of_pull_request_page_witness :
  PRMetadata.getPRMetadata "/projects/PRJ/repos/my-repo/pull-requests/42/overview"
  = PRMetadata.Metadata (Some "PRJ") (Some "my-repo") (Some "42")
  /\ PRMetadata.prFetchURLPrefix
       "/projects/PRJ/repos/my-repo/pull-requests/42/overview"
     = "https://{server}/rest/api/latest/projects/PRJ/repos/my-repo/pull-requests/42".
Proof.
  destruct (@getPRMetadata_of_pull_request_page "PRJ" "my-repo" "42"
              eq_refl eq_refl eq_refl) as [E [U _]].
  split; [exact E|]. reflexivity.
Defined.

(** X19.  [getPRMetadata] takes the parts of the path after the second,
    the fourth and the sixth slash; a part is missing exactly when the
    path has fewer slashes than that, and a missing part shows as
    [undefined] in the prefix of the REST calls: a path with fewer than
    two slashes gives the prefix for project, repository and pull request
    [undefined]. *)
Theorem getPRMetadata_missing_parts (pathname : string) :
  (PRMetadata.project (PRMetadata.getPRMetadata pathname) = None
   <-> (PRMetadata.occurrences "/" pathname < 2)%nat)
  /\ (PRMetadata.repo (PRMetadata.getPRMetadata pathname) = None
      <-> (PRMetadata.occurrences "/" pathname < 4)%nat)
  /\ (PRMetadata.prid (PRMetadata.getPRMetadata pathname) = None
      <-> (PRMetadata.occurrences "/" pathname < 6)%nat)
  /\ ((PRMetadata.occurrences "/" pathname < 2)%nat ->
      PRMetadata.prFetchURLPrefix pathname
      = (PRMetadata.baseURL
         ++ "/projects/undefined/repos/undefined/pull-requests/undefined")%string).
Proof.
  unfold PRMetadata.getPRMetadata.
  cbn [PRMetadata.project PRMetadata.repo PRMetadata.prid].
  assert (N : forall n,
             nth_error (PRMetadata.split "/" pathname) n = None
             <-> (PRMetadata.occurrences "/" pathname < n)%nat).
  { intros n. rewrite nth_error_None, split_length. lia. }
  split; [apply N|]. split; [apply N|]. split; [apply N|].
  intros H. unfold PRMetadata.prFetchURLPrefix, PRMetadata.getPRMetadata.
  cbn [PRMetadata.project PRMetadata.repo PRMetadata.prid].
  rewrite (proj2 (N 2%nat)), (proj2 (N 4%nat)), (proj2 (N 6%nat)) by lia.
  reflexivity.
Qed.

Lemma getPRMetadata_missing_parts_witness :
  PRMetadata.prFetchURLPrefix "/dashboard"
  = "https://{server}/rest/api/latest/projects/undefined/repos/undefined/pull-requests/undefined".
Proof.
  apply (proj2 (proj2 (proj2 (getPRMetadata_missing_parts "/dashboard")))).
  simpl. lia.
Defined.
